(** * pganalyze collector: statement acquisition, probes and state

    A shallow embedding of

    - [dbstats/statements.go]: [statementStatsHelperExists] and
      [GetStatements] (the SQL text they build, the repair-and-retry
      around [db.Prepare], the row loop);
    - [input/postgres/superuser.go]: the three capability / privilege
      probes and [statsHelperExists];
    - the [state] declarations ([PersistedState], [DiffState],
      [StateOnDisk], [StateOnDiskFormatVersion]).

    Go strings are byte strings ([string]); Go [int], [int64] and [uint]
    are [Z] / [N] (only compared or carried, never overflowed here);
    [float64] values are carried as [spec_float].  The [*sql.DB] handle is
    a driver over an explicit server state, and every call made on it is
    appended to a trace. *)

From Stdlib Require Import ZArith NArith List String Ascii Bool Lia.
From Stdlib Require Import SpecFloat.
From stdpp Require Import base option gmap strings list fin_maps.

Import ListNotations.
Local Open Scope list_scope.
Local Open Scope string_scope.

#[local] Arguments String.append !_ _ / : simpl nomatch.

(** ** Characters *)

Definition LF : string := String (ascii_of_nat 10) EmptyString.
Definition TAB : string := String (ascii_of_nat 9) EmptyString.
Definition BACKSLASH : ascii := ascii_of_nat 92.

Definition is_upper (c : ascii) : bool :=
  (65 <=? nat_of_ascii c)%nat && (nat_of_ascii c <=? 90)%nat.

Definition is_lower (c : ascii) : bool :=
  (97 <=? nat_of_ascii c)%nat && (nat_of_ascii c <=? 122)%nat.

Definition is_digit (c : ascii) : bool :=
  (48 <=? nat_of_ascii c)%nat && (nat_of_ascii c <=? 57)%nat.

Definition is_alnum (c : ascii) : bool :=
  is_upper c || is_lower c || is_digit c.

Definition to_lower (c : ascii) : ascii :=
  if is_upper c then ascii_of_nat (nat_of_ascii c + 32) else c.

(** Comparison of two bytes up to ASCII letter case. *)
Definition ci_eqb (a b : ascii) : bool := Ascii.eqb (to_lower a) (to_lower b).

Fixpoint mem_ascii (c : ascii) (cutset : string) : bool :=
  match cutset with
  | EmptyString => false
  | String d rest => Ascii.eqb c d || mem_ascii c rest
  end.

Fixpoint forallb_string (p : ascii -> bool) (s : string) : bool :=
  match s with
  | EmptyString => true
  | String c rest => p c && forallb_string p rest
  end.

(** [HasPrefix s p]: [s] begins with [p], byte for byte. *)
Definition HasPrefix (s p : string) : bool := String.prefix p s.

(** [s] begins with [p] when ASCII letter case is ignored. *)
Fixpoint HasPrefixFold (s p : string) {struct p} : bool :=
  match p with
  | EmptyString => true
  | String a p' =>
      match s with
      | EmptyString => false
      | String b s' => ci_eqb a b && HasPrefixFold s' p'
      end
  end.

(** ** The Go [strings] and [fmt] functions the source calls *)

Module strings.

Fixpoint TrimLeft (s cutset : string) : string :=
  match s with
  | EmptyString => EmptyString
  | String c rest => if mem_ascii c cutset then TrimLeft rest cutset else s
  end.

Fixpoint TrimRight (s cutset : string) : string :=
  match s with
  | EmptyString => EmptyString
  | String c rest =>
      match TrimRight rest cutset with
      | EmptyString => if mem_ascii c cutset then EmptyString else String c EmptyString
      | kept => String c kept
      end
  end.

(** [strings.Trim(s, cutset)]: all leading and trailing bytes contained in
    [cutset] removed. *)
Definition Trim (s cutset : string) : string :=
  TrimRight (TrimLeft s cutset) cutset.

(** Left-to-right scan of [strings.Replace(s, old, new, -1)] for a
    non-empty [old]: [skip] counts the bytes of the last match of [old]
    that are still to be dropped. *)
Fixpoint replace_from (old new : string) (skip : nat) (s : string) : string :=
  match s with
  | EmptyString => EmptyString
  | String c rest =>
      match skip with
      | S k => replace_from old new k rest
      | O =>
          if String.prefix old s
          then new ++ replace_from old new (String.length old - 1) rest
          else String c (replace_from old new 0 rest)
      end
  end.

(** [strings.Replace(s, old, new, n)] with [n < 0] (no limit) and [old]
    non-empty, the only way the source calls it. *)
Definition Replace (s old new : string) : string := replace_from old new 0 s.

End strings.

Module fmt.

(** [fmt.Sprintf] for formats built from the verbs [%s] and [%%], with
    string operands.  A [%s] without operand prints [%!s(MISSING)] as Go
    does; other verbs do not occur in the source and are copied. *)
Fixpoint Sprintf (format : string) (args : list string) : string :=
  match format with
  | EmptyString => EmptyString
  | String c rest =>
      if Ascii.eqb c "%"
      then match rest with
           | String d rest' =>
               if Ascii.eqb d "s"
               then match args with
                    | a :: args' => a ++ Sprintf rest' args'
                    | [] => "%!s(MISSING)" ++ Sprintf rest' []
                    end
               else if Ascii.eqb d "%"
               then String "%" (Sprintf rest' args)
               else String c (String d (Sprintf rest' args))
           | EmptyString => "%!(NOVERB)"
           end
      else String c (Sprintf rest args)
  end.

End fmt.

(** ** The PostgreSQL operators used by the acquisition query

    [statementSQL] filters with [!~*] (POSIX regular expression, letter
    case ignored), [<>], [NOT LIKE] and [IN].  The regular expressions
    modelled are the fragment the marker pattern can fall into: ordinary
    characters, [\k] for a non-alphanumeric [k], [.], and the quantifiers
    [*], [+] and [?], with an optional leading [^].  A pattern outside
    this fragment has no modelled meaning ([None]).  The pattern is read
    as it stands between the quotes of the SQL literal
    (standard_conforming_strings on, the server default). *)

Module pg.

Inductive atom := Lit (c : ascii) | AnyChar.
Inductive quant := Once | Star | Plus | Opt.
Inductive token := TAtom (a : atom) | TQuant (q : quant).

Definition is_meta (c : ascii) : bool :=
  mem_ascii c "\^$.|?*+()[]{}".

Fixpoint lex (s : string) : option (list token) :=
  match s with
  | EmptyString => Some []
  | String c rest =>
      if Ascii.eqb c BACKSLASH
      then match rest with
           | String k rest' =>
               if is_alnum k then None
               else option_map (cons (TAtom (Lit k))) (lex rest')
           | EmptyString => None
           end
      else if Ascii.eqb c "." then option_map (cons (TAtom AnyChar)) (lex rest)
      else if Ascii.eqb c "*" then option_map (cons (TQuant Star)) (lex rest)
      else if Ascii.eqb c "+" then option_map (cons (TQuant Plus)) (lex rest)
      else if Ascii.eqb c "?" then option_map (cons (TQuant Opt)) (lex rest)
      else if is_meta c then None
      else option_map (cons (TAtom (Lit c))) (lex rest)
  end.

Fixpoint parse (ts : list token) : option (list (atom * quant)) :=
  match ts with
  | [] => Some []
  | TAtom a :: rest =>
      match rest with
      | TQuant q :: rest' => option_map (cons (a, q)) (parse rest')
      | _ => option_map (cons (a, Once)) (parse rest)
      end
  | TQuant _ :: _ => None
  end.

Definition atom_matches (a : atom) (c : ascii) : bool :=
  match a with
  | Lit d => ci_eqb d c
  | AnyChar => true
  end.

(** Zero or more bytes matching [a], then the continuation [k]. *)
Fixpoint star (a : atom) (k : string -> bool) (s : string) : bool :=
  k s ||
  match s with
  | String c s' => atom_matches a c && star a k s'
  | EmptyString => false
  end.

(** The pieces match a prefix of [s]. *)
Fixpoint match_here (ps : list (atom * quant)) (s : string) : bool :=
  match ps with
  | [] => true
  | (a, Once) :: ps' =>
      match s with
      | String c s' => atom_matches a c && match_here ps' s'
      | EmptyString => false
      end
  | (a, Opt) :: ps' =>
      match_here ps' s ||
      match s with
      | String c s' => atom_matches a c && match_here ps' s'
      | EmptyString => false
      end
  | (a, Star) :: ps' => star a (match_here ps') s
  | (a, Plus) :: ps' =>
      match s with
      | String c s' => atom_matches a c && star a (match_here ps') s'
      | EmptyString => false
      end
  end.

Fixpoint match_anywhere (ps : list (atom * quant)) (s : string) : bool :=
  match_here ps s ||
  match s with
  | String _ s' => match_anywhere ps s'
  | EmptyString => false
  end.

(** [s ~* pattern]. *)
Definition regex_imatch (s pattern : string) : option bool :=
  match pattern with
  | String "^" body =>
      match lex body with
      | Some ts => option_map (fun ps => match_here ps s) (parse ts)
      | None => None
      end
  | _ =>
      match lex pattern with
      | Some ts => option_map (fun ps => match_anywhere ps s) (parse ts)
      | None => None
      end
  end.

Inductive like_token := LChar (c : ascii) | LOne | LMany.

Fixpoint like_lex (p : string) : list like_token :=
  match p with
  | EmptyString => []
  | String c rest =>
      if Ascii.eqb c "%" then LMany :: like_lex rest
      else if Ascii.eqb c "_" then LOne :: like_lex rest
      else if Ascii.eqb c BACKSLASH
      then match rest with
           | String k rest' => LChar k :: like_lex rest'
           | EmptyString => [LChar c]
           end
      else LChar c :: like_lex rest
  end.

Fixpoint like_many (k : string -> bool) (s : string) : bool :=
  k s ||
  match s with
  | String _ s' => like_many k s'
  | EmptyString => false
  end.

Fixpoint like_tokens (p : list like_token) (s : string) : bool :=
  match p with
  | [] => match s with EmptyString => true | _ => false end
  | LChar c :: p' =>
      match s with
      | String d s' => Ascii.eqb c d && like_tokens p' s'
      | EmptyString => false
      end
  | LOne :: p' =>
      match s with
      | String _ s' => like_tokens p' s'
      | EmptyString => false
      end
  | LMany :: p' => like_many (like_tokens p') s
  end.

(** [s LIKE pattern]: the whole of [s] matches. *)
Definition like (s pattern : string) : bool := like_tokens (like_lex pattern) s.

(** Column values as the driver hands them to [Scan]. *)
Inductive value :=
| VNull
| VInt (z : Z)
| VFloat (f : spec_float)
| VText (s : string).

(** A row of a relation: the value of each named column. *)
Definition Row := string -> value.

(** The part of the server the filter looks at: the rows (oid, datname)
    of [pg_database] and the result of [current_database()]. *)
Record Catalog := {
  pg_database : list (Z * string);
  current_database : string
}.

Definition current_database_oids (cat : Catalog) : list Z :=
  List.map fst (List.filter (fun d => String.eqb (snd d) (current_database cat)) (pg_database cat)).

End pg.

(** ** database/sql, as far as the source uses it

    A [DB] answers each call from a server state of type [W], which the
    call may change.  [db.QueryRow(q).Scan(&b)] is one call with one
    answer.  A result set is delivered whole by [stmt.Query()]: the rows
    that [rows.Next()] will hand out, each with the result of its
    [rows.Scan], and the error, if any, that ended the iteration early
    and that [rows.Err()] would report after [rows.Next()] returned
    false. *)

Module sql.

(** An [error] value is either a [*pq.Error], which carries the SQLSTATE
    [Code], or a value of another dynamic type. *)
Inductive error :=
| PqError (Code : string) (Message : string)
| OtherError (text : string).

Inductive event :=
| QueryRow (query : string)
| Prepare (query : string)
| Exec (query : string)
| StmtQuery
| RowsClose
| StmtClose
| PrintVerbose (msg : string)
| PrintInfo (msg : string).

(** The SQL text an event sends to the server, if it sends one. *)
Definition sql_text (e : event) : option string :=
  match e with
  | QueryRow q | Prepare q | Exec q => Some q
  | _ => None
  end.

Definition sent (trace : list event) : list string :=
  omap sql_text trace.

Definition Stmt := nat.

Record Rows (R : Type) := {
  rows_next : list (error + R);
  rows_Err : option error
}.
Arguments rows_next {R} _.
Arguments rows_Err {R} _.

Record DB (W R : Type) := {
  db_QueryRowScanBool : string -> W -> (error + bool) * W;
  db_Prepare : string -> W -> (error + Stmt) * W;
  db_Exec : string -> W -> option error * W;
  stmt_Query : Stmt -> W -> (error + Rows R) * W
}.
Arguments db_QueryRowScanBool {W R} _ _ _.
Arguments db_Prepare {W R} _ _ _.
Arguments db_Exec {W R} _ _ _.
Arguments stmt_Query {W R} _ _ _.

(** What a Go function call ends in. *)
Inductive outcome (A : Type) :=
| Returned (a : A)
| Panicked.
Arguments Returned {A} a.
Arguments Panicked {A}.

(** Computations over the server state and the trace of calls so far. *)
Definition M (W A : Type) : Type := W * list event -> A * (W * list event).

Definition ret {W A} (a : A) : M W A := fun st => (a, st).

Definition bind {W A B} (m : M W A) (k : A -> M W B) : M W B :=
  fun st => let (a, st') := m st in k a st'.

Definition emit {W} (e : event) : M W unit :=
  fun st => (tt, (fst st, (snd st ++ [e])%list)).

(** One call on the handle: the event is recorded, the driver answers. *)
Definition call {W A} (e : event) (f : W -> A * W) : M W A :=
  fun st => let (a, w') := f (fst st) in (a, (w', (snd st ++ [e])%list)).

Definition run {W A} (m : M W A) (w : W) : A * (W * list event) := m (w, []).

Definition result {W A} (m : M W A) (w : W) : A := fst (run m w).
Definition trace {W A} (m : M W A) (w : W) : list event := snd (snd (run m w)).

End sql.

Declare Scope go_scope.
Delimit Scope go_scope with go.
Notation "x <- m ;; k" := (sql.bind m (fun x => k))
  (at level 100, m at next level, right associativity) : go_scope.
Notation "m ;;; k" := (sql.bind m (fun _ => k))
  (at level 100, right associativity) : go_scope.

(** ** Package dbstats (statements.go) *)

Module null.
(** [null.Int] and [null.Float]: a value or SQL NULL ([Valid = false]). *)
Definition Int := option Z.
Definition Float := option spec_float.
End null.

Module dbstats.

Record Statement := {
  Userid : Z;
  Query : string;
  Calls : Z;
  TotalTime : spec_float;
  Rows : Z;
  SharedBlksHit : Z;
  SharedBlksRead : Z;
  SharedBlksDirtied : Z;
  SharedBlksWritten : Z;
  LocalBlksHit : Z;
  LocalBlksRead : Z;
  LocalBlksDirtied : Z;
  LocalBlksWritten : Z;
  TempBlksRead : Z;
  TempBlksWritten : Z;
  BlkReadTime : spec_float;
  BlkWriteTime : spec_float;
  (* Postgres 9.4+ *)
  Queryid : null.Int;
  (* Postgres 9.5+ *)
  MinTime : null.Float;
  MaxTime : null.Float;
  MeanTime : null.Float;
  StddevTime : null.Float
}.

(** The struct is declared in another file of the package; only
    [Numeric] is read here. *)
Record PostgresVersion := { Numeric : Z }.

Definition statementSQLDefaultOptionalFields : string :=
  "NULL, NULL, NULL, NULL, NULL".
Definition statementSQLpg94OptionalFields : string :=
  "queryid, NULL, NULL, NULL, NULL".
Definition statementSQLpg95OptionalFields : string :=
  "queryid, min_time, max_time, mean_time, stddev_time".

(** The [statementSQL] literal is cut into its select list and its
    filter, which are also read by the meaning given to the query
    below. *)
Definition statementSQL_columns : string :=
  "userid, query, calls, total_time, rows, shared_blks_hit, shared_blks_read,"
  ++ LF ++ TAB ++ TAB ++ TAB
  ++ " shared_blks_dirtied, shared_blks_written, local_blks_hit, local_blks_read,"
  ++ LF ++ TAB ++ TAB ++ TAB
  ++ " local_blks_dirtied, local_blks_written, temp_blks_read, temp_blks_written,"
  ++ LF ++ TAB ++ TAB ++ TAB
  ++ " blk_read_time, blk_write_time, %s".

Definition statementSQL_where : string :=
  " WHERE query !~* '^%s' AND query <> '<insufficient privilege>'"
  ++ LF ++ TAB ++ TAB ++ TAB
  ++ " AND query NOT LIKE 'DEALLOCATE %%'"
  ++ LF ++ TAB ++ TAB ++ TAB
  ++ " AND dbid IN (SELECT oid FROM pg_database WHERE datname = current_database())".

Definition statementSQL : string :=
  LF ++ "SELECT " ++ statementSQL_columns ++ LF ++ TAB ++ "FROM %s" ++ LF
  ++ statementSQL_where.

Definition statementStatsHelperSQL : string :=
  LF ++ "SELECT 1 AS enabled"
  ++ LF ++ TAB ++ "FROM pg_proc"
  ++ LF ++ TAB ++ "JOIN pg_namespace ON (pronamespace = pg_namespace.oid)"
  ++ LF ++ " WHERE nspname = 'pganalyze' AND proname = 'get_stat_statements'"
  ++ LF.

(** *** What the acquisition query asks for

    Read off the text of [statementSQL]: the rows of the source relation
    that pass the filter, each projected on the select list and scanned
    into a [Statement] as in the row loop. *)

Fixpoint split_columns (s cur : string) : list string :=
  match s with
  | EmptyString => [strings.Trim cur (" " ++ TAB ++ LF)]
  | String c rest =>
      if Ascii.eqb c ","
      then strings.Trim cur (" " ++ TAB ++ LF) :: split_columns rest ""
      else split_columns rest (cur ++ String c "")
  end.

(** The select list once [optionalFields] has replaced its [%s]. *)
Definition select_list (optionalFields : string) : list string :=
  split_columns (fmt.Sprintf statementSQL_columns [optionalFields]) "".

Definition eval_column (r : pg.Row) (expr : string) : pg.value :=
  if String.eqb expr "NULL" then pg.VNull else r expr.

Definition where_clause (queryMarkerRegex : string) (cat : pg.Catalog) (r : pg.Row)
  : option bool :=
  match r "query", r "dbid" with
  | pg.VText query, pg.VInt dbid =>
      option_map
        (fun marked =>
           negb marked
           && negb (String.eqb query "<insufficient privilege>")
           && negb (pg.like query "DEALLOCATE %")
           && existsb (Z.eqb dbid) (pg.current_database_oids cat))
        (pg.regex_imatch query ("^" ++ queryMarkerRegex))
  | _, _ => Some false
  end.

Definition scan_error (column : string) : sql.error :=
  sql.OtherError ("sql: Scan error on column " ++ column).

Definition scanInt (v : pg.value) : sql.error + Z :=
  match v with pg.VInt z => inr z | _ => inl (scan_error "int") end.
Definition scanFloat (v : pg.value) : sql.error + spec_float :=
  match v with pg.VFloat f => inr f | _ => inl (scan_error "float64") end.
Definition scanString (v : pg.value) : sql.error + string :=
  match v with pg.VText t => inr t | _ => inl (scan_error "string") end.
Definition scanNullInt (v : pg.value) : sql.error + null.Int :=
  match v with
  | pg.VNull => inr None
  | pg.VInt z => inr (Some z)
  | _ => inl (scan_error "null.Int")
  end.
Definition scanNullFloat (v : pg.value) : sql.error + null.Float :=
  match v with
  | pg.VNull => inr None
  | pg.VFloat f => inr (Some f)
  | _ => inl (scan_error "null.Float")
  end.

Definition and_then {A B} (r : sql.error + A) (k : A -> sql.error + B) : sql.error + B :=
  match r with
  | inl e => inl e
  | inr a => k a
  end.

Local Notation "x <~ r ; k" := (and_then r (fun x => k))
  (at level 100, r at next level, right associativity).

(** [rows.Scan(&row.Userid, ..., &row.StddevTime)] on the columns of one
    row.  A column whose kind is not the destination's is reported as a
    Scan error. *)
Definition Scan (columns : list pg.value) : sql.error + Statement :=
  match columns with
  | [c1; c2; c3; c4; c5; c6; c7; c8; c9; c10; c11; c12; c13; c14; c15; c16; c17;
     c18; c19; c20; c21; c22] =>
      userid <~ scanInt c1 ;
      query <~ scanString c2 ;
      calls <~ scanInt c3 ;
      totalTime <~ scanFloat c4 ;
      rows <~ scanInt c5 ;
      sharedBlksHit <~ scanInt c6 ;
      sharedBlksRead <~ scanInt c7 ;
      sharedBlksDirtied <~ scanInt c8 ;
      sharedBlksWritten <~ scanInt c9 ;
      localBlksHit <~ scanInt c10 ;
      localBlksRead <~ scanInt c11 ;
      localBlksDirtied <~ scanInt c12 ;
      localBlksWritten <~ scanInt c13 ;
      tempBlksRead <~ scanInt c14 ;
      tempBlksWritten <~ scanInt c15 ;
      blkReadTime <~ scanFloat c16 ;
      blkWriteTime <~ scanFloat c17 ;
      queryid <~ scanNullInt c18 ;
      minTime <~ scanNullFloat c19 ;
      maxTime <~ scanNullFloat c20 ;
      meanTime <~ scanNullFloat c21 ;
      stddevTime <~ scanNullFloat c22 ;
      inr {| Userid := userid; Query := query; Calls := calls; TotalTime := totalTime;
             Rows := rows; SharedBlksHit := sharedBlksHit;
             SharedBlksRead := sharedBlksRead; SharedBlksDirtied := sharedBlksDirtied;
             SharedBlksWritten := sharedBlksWritten; LocalBlksHit := localBlksHit;
             LocalBlksRead := localBlksRead; LocalBlksDirtied := localBlksDirtied;
             LocalBlksWritten := localBlksWritten; TempBlksRead := tempBlksRead;
             TempBlksWritten := tempBlksWritten; BlkReadTime := blkReadTime;
             BlkWriteTime := blkWriteTime; Queryid := queryid; MinTime := minTime;
             MaxTime := maxTime; MeanTime := meanTime; StddevTime := stddevTime |}
  | _ => inl (sql.OtherError "sql: wrong number of destination arguments in Scan")
  end.

(** One source row through select list and [Scan]. *)
Definition scan_selected (optionalFields : string) (r : pg.Row) : sql.error + Statement :=
  Scan (List.map (eval_column r) (select_list optionalFields)).

(** The rows the query delivers from the source relation, in order;
    [None] when the marker pattern has no modelled meaning. *)
Fixpoint acquired (optionalFields queryMarkerRegex : string) (cat : pg.Catalog)
  (source : list pg.Row) : option (list (sql.error + Statement)) :=
  match source with
  | [] => Some []
  | r :: rest =>
      match where_clause queryMarkerRegex cat r,
            acquired optionalFields queryMarkerRegex cat rest with
      | Some keep, Some tail =>
          Some (if keep then scan_selected optionalFields r :: tail else tail)
      | _, _ => None
      end
  end.

Section WithMarker.

(** Constants of the package declared outside statements.go. *)
Variable QueryMarkerSQL : string.
Variables PostgresVersion94 PostgresVersion95 : Z.

Definition optionalFieldsFor (postgresVersion : PostgresVersion) : string :=
  if (Numeric postgresVersion >=? PostgresVersion95)%Z
  then statementSQLpg95OptionalFields
  else if (Numeric postgresVersion >=? PostgresVersion94)%Z
  then statementSQLpg94OptionalFields
  else statementSQLDefaultOptionalFields.

Definition sourceTableFor (helperExists : bool) : string :=
  if helperExists then "pganalyze.get_stat_statements()" else "pg_stat_statements".

Definition queryMarkerRegex : string :=
  let queryMarkerRegex := strings.Trim QueryMarkerSQL " " in
  let queryMarkerRegex := strings.Replace queryMarkerRegex "*" "\*" in
  strings.Replace queryMarkerRegex "/" "\/".

Definition createExtensionSQL : string :=
  QueryMarkerSQL ++ "CREATE EXTENSION IF NOT EXISTS pg_stat_statements".

(** The row loop: [rows.Scan] failing on a row returns [nil, err];
    when [rows.Next()] returns false the rows appended so far are
    returned with a nil error. *)
Fixpoint scanRows (next : list (sql.error + Statement)) (statements : list Statement)
  : list Statement * option sql.error :=
  match next with
  | [] => (statements, None)
  | inl err :: _ => ([], Some err)
  | inr row :: rest => scanRows rest (statements ++ [row])%list
  end.

Section WithDB.

Context {W : Type}.
Variable db : sql.DB W Statement.

Local Open Scope go_scope.

Definition statementStatsHelperExists : sql.M W bool :=
  r <- sql.call (sql.QueryRow (QueryMarkerSQL ++ statementStatsHelperSQL))
         (sql.db_QueryRowScanBool db (QueryMarkerSQL ++ statementStatsHelperSQL)) ;;
  match r with
  | inl _ => sql.ret false
  | inr enabled => sql.ret enabled
  end.

(** From [defer stmt.Close()] to the end of the function. *)
Definition queryStatements (stmt : sql.Stmt)
  : sql.M W (sql.outcome (list Statement * option sql.error)) :=
  r <- sql.call sql.StmtQuery (sql.stmt_Query db stmt) ;;
  match r with
  | inl err =>
      sql.emit sql.StmtClose ;;;
      sql.ret (sql.Returned ([], Some err))
  | inr rows =>
      let res := scanRows (sql.rows_next rows) [] in
      sql.emit sql.RowsClose ;;;
      sql.emit sql.StmtClose ;;;
      sql.ret (sql.Returned res)
  end.

Definition GetStatements (postgresVersion : PostgresVersion)
  : sql.M W (sql.outcome (list Statement * option sql.error)) :=
  let optionalFields := optionalFieldsFor postgresVersion in
  helper <- statementStatsHelperExists ;;
  (if helper
   then sql.emit (sql.PrintVerbose "Found pganalyze.get_stat_statements() stats helper")
   else sql.ret tt) ;;;
  let sourceTable := sourceTableFor helper in
  let sqlText :=
    QueryMarkerSQL
    ++ fmt.Sprintf statementSQL [optionalFields; sourceTable; queryMarkerRegex] in
  r <- sql.call (sql.Prepare sqlText) (sql.db_Prepare db sqlText) ;;
  match r with
  | inr stmt => queryStatements stmt
  | inl err =>
      if String.eqb sourceTable "pg_stat_statements"
      then
        (* the unchecked type assertion on err panics unless err is a pq.Error *)
        match err with
        | sql.OtherError _ => sql.ret sql.Panicked
        | sql.PqError Code _ =>
            if String.eqb Code "42P01"
            then
              sql.emit (sql.PrintInfo
                "pg_stat_statements relation does not exist, trying to create extension...") ;;;
              e <- sql.call (sql.Exec createExtensionSQL)
                     (sql.db_Exec db createExtensionSQL) ;;
              match e with
              | Some err' => sql.ret (sql.Returned ([], Some err'))
              | None =>
                  r' <- sql.call (sql.Prepare sqlText) (sql.db_Prepare db sqlText) ;;
                  match r' with
                  | inl err' => sql.ret (sql.Returned ([], Some err'))
                  | inr stmt => queryStatements stmt
                  end
              end
            else sql.ret (sql.Returned ([], Some err))
        end
      else sql.ret (sql.Returned ([], Some err))
  end.

End WithDB.

End WithMarker.

End dbstats.

(** ** Package postgres (superuser.go) *)

Module postgres.

Definition connectedAsSuperUserSQL : string :=
  "SELECT current_setting('is_superuser') = 'on'".

Definition connectedAsMonitoringRoleSQL : string :=
  LF ++ "SELECT true"
  ++ LF ++ TAB ++ "FROM pg_auth_members"
  ++ LF ++ " WHERE roleid = (SELECT oid FROM pg_roles WHERE rolname = 'pg_monitor')"
  ++ LF ++ TAB ++ TAB ++ TAB
  ++ " AND member = (SELECT oid FROM pg_roles WHERE rolname = current_user);".

Definition statsHelperSQL : string :=
  LF ++ "SELECT 1 AS enabled"
  ++ LF ++ TAB ++ "FROM pg_proc"
  ++ LF ++ TAB ++ "JOIN pg_namespace ON (pronamespace = pg_namespace.oid)"
  ++ LF ++ " WHERE nspname = 'pganalyze' AND proname = '%s'"
  ++ LF.

Section WithMarker.

(** Constant of the package declared outside superuser.go. *)
Variable QueryMarkerSQL : string.

Context {W R : Type}.
Variable db : sql.DB W R.

Local Open Scope go_scope.

Definition connectedAsSuperUser : sql.M W bool :=
  r <- sql.call (sql.QueryRow (QueryMarkerSQL ++ connectedAsSuperUserSQL))
         (sql.db_QueryRowScanBool db (QueryMarkerSQL ++ connectedAsSuperUserSQL)) ;;
  match r with
  | inl _ => sql.ret false
  | inr enabled => sql.ret enabled
  end.

Definition connectedAsMonitoringRole : sql.M W bool :=
  r <- sql.call (sql.QueryRow (QueryMarkerSQL ++ connectedAsMonitoringRoleSQL))
         (sql.db_QueryRowScanBool db (QueryMarkerSQL ++ connectedAsMonitoringRoleSQL)) ;;
  match r with
  | inl _ => sql.ret false
  | inr enabled => sql.ret enabled
  end.

Definition statsHelperExists (statsHelper : string) : sql.M W bool :=
  let q := QueryMarkerSQL ++ fmt.Sprintf statsHelperSQL [statsHelper] in
  r <- sql.call (sql.QueryRow q) (sql.db_QueryRowScanBool db q) ;;
  match r with
  | inl _ => sql.ret false
  | inr enabled => sql.ret enabled
  end.

End WithMarker.

End postgres.

(** ** Package state

    The structs are the source's; of [PersistedState] the fields that are
    diffed are kept, the catalog lists (roles, databases, backends,
    relations, settings, functions, version, logs, explains), whose types
    are declared elsewhere, are carried through undiffed and left out.
    A record of counters maps each field that is present to its value;
    floating-point accumulators are read as exact numbers.  The fields of
    [DiffState] carry the prefix [Diffed] (in Go they share the names of
    the [PersistedState] fields), and its three system maps are one
    entity, as the diff treats them. *)

Module state.

Definition Oid := Z.

(** (database, user or role, object) *)
Definition EntityKey : Type := Oid * Oid * Z.

Abbreviation Counters := (gmap string Z).
Abbreviation CounterSet := (gmap EntityKey (gmap string Z)).

Record PersistedState := {
  CollectedAt : Z;
  DatabaseOidsWithLocalCatalog : list Oid;
  StatementStats : CounterSet;
  RelationStats : CounterSet;
  IndexStats : CounterSet;
  FunctionStats : CounterSet;
  DataDirectory : string;
  System : Counters;
  CollectorStats : Counters
}.

(** One entity of a diff: its deltas, and whether it was treated as
    reset. *)
Record Diffed := {
  delta : Counters;
  reset : bool
}.

Abbreviation DiffedSet := (gmap EntityKey Diffed).

Record DiffState := {
  DiffedStatementStats : DiffedSet;
  DiffedRelationStats : DiffedSet;
  DiffedIndexStats : DiffedSet;
  DiffedFunctionStats : DiffedSet;
  DiffedSystemStats : Diffed;
  DiffedCollectorStats : Diffed
}.

Definition StateOnDiskFormatVersion : N := 1.

Record StateOnDisk := {
  FormatVersion : N;
  PrevStateByAPIKey : gmap string PersistedState
}.

(** Modelled from the spec: the function that reads the previous state of
    an API key out of a [StateOnDisk] container is not in the source
    files at hand.  Spec 4.3: if the container's format-version tag does
    not match the expected version the entire prior state is discarded
    (Absent); otherwise the snapshot stored for the key, if any. *)
Definition Load (container : StateOnDisk) (apiKey : string) : option PersistedState :=
  if N.eqb (FormatVersion container) StateOnDiskFormatVersion
  then PrevStateByAPIKey container !! apiKey
  else None.

(** Some field present in both records is smaller in [cur]. *)
Definition decreased (prev cur : Counters) : bool :=
  existsb
    (fun fc => match prev !! fc.1 with
               | Some p => (fc.2 <? p)%Z
               | None => false
               end)
    (map_to_list cur).

(** Modelled from the spec: the diff function is not in the source files
    at hand (only its result type [DiffState] is).  Spec 4.2, steps 2 to
    4, for one entity of the current snapshot: absent before, every
    delta is zero; some counter decreased, the current values are the
    deltas and the entity is marked reset; else current minus previous
    for the fields present in both. *)
Definition diffEntity (prev : option Counters) (cur : Counters) : Diffed :=
  match prev with
  | None => {| delta := (fun _ => 0%Z) <$> cur; reset := false |}
  | Some p =>
      if decreased p cur
      then {| delta := cur; reset := true |}
      else {| delta := intersection_with (fun c p => Some (c - p)%Z) cur p;
              reset := false |}
  end.

(** Modelled from the spec: steps 1 and 5 of spec 4.2, one category:
    every key of the current counter set is looked up in the previous
    one; keys only in the previous one give no record. *)
Definition diffCategory (prev cur : CounterSet) : DiffedSet :=
  map_imap (fun key c => Some (diffEntity (prev !! key) c)) cur.

Inductive Category := Statements | Relations | Indexes | Functions.

Definition counterSet (cat : Category) (s : PersistedState) : CounterSet :=
  match cat with
  | Statements => StatementStats s
  | Relations => RelationStats s
  | Indexes => IndexStats s
  | Functions => FunctionStats s
  end.

Definition diffedSet (cat : Category) (d : DiffState) : DiffedSet :=
  match cat with
  | Statements => DiffedStatementStats d
  | Relations => DiffedRelationStats d
  | Indexes => DiffedIndexStats d
  | Functions => DiffedFunctionStats d
  end.

(** Modelled from the spec: the diff of two snapshots (spec 4.2), each
    category on its own; system and collector counters as one entity
    each (step 6); an absent previous snapshot makes every entity
    new. *)
Definition DiffEngine (prev : option PersistedState) (cur : PersistedState) : DiffState :=
  let before (cat : Category) : CounterSet :=
    match prev with Some p => counterSet cat p | None => ∅ end in
  {| DiffedStatementStats := diffCategory (before Statements) (StatementStats cur);
     DiffedRelationStats := diffCategory (before Relations) (RelationStats cur);
     DiffedIndexStats := diffCategory (before Indexes) (IndexStats cur);
     DiffedFunctionStats := diffCategory (before Functions) (FunctionStats cur);
     DiffedSystemStats := diffEntity (System <$> prev) (System cur);
     DiffedCollectorStats := diffEntity (CollectorStats <$> prev) (CollectorStats cur) |}.

(** Counters are cumulative, hence never negative. *)
Definition nonneg (c : Counters) : Prop := map_Forall (fun _ v => (0 <= v)%Z) c.

Definition wellFormed (s : PersistedState) : Prop :=
  (forall cat, map_Forall (fun _ c => nonneg c) (counterSet cat s))
  /\ nonneg (System s) /\ nonneg (CollectorStats s).

End state.

(** ** Vocabulary of the statements below *)

(** What the two [strings.Replace] calls of [GetStatements] do to one
    byte. *)
Definition escape_byte (c : ascii) : string :=
  if Ascii.eqb c "*" then "\*"
  else if Ascii.eqb c "/" then "\/"
  else String c "".

(** [strings.Replace] when [old] is the single byte [a]. *)
Fixpoint replace_byte (a : ascii) (new s : string) : string :=
  match s with
  | EmptyString => EmptyString
  | String c rest =>
      (if Ascii.eqb c a then new else String c "") ++ replace_byte a new rest
  end.

Fixpoint escape (s : string) : string :=
  match s with
  | EmptyString => EmptyString
  | String c rest => escape_byte c ++ escape rest
  end.

(** Bytes of a marker that the pattern built by [GetStatements] matches
    literally: [*] and [/], which it escapes, and printable ASCII that
    is neither a regular-expression metacharacter nor the quote that would
    end the SQL string literal. *)
Definition literal_in_pattern (c : ascii) : bool :=
  Ascii.eqb c "*"
  || (negb (pg.is_meta c) && negb (Ascii.eqb c "'")
      && (32 <=? nat_of_ascii c)%nat && (nat_of_ascii c <=? 126)%nat).

Definition lit_token (c : ascii) : pg.token := pg.TAtom (pg.Lit c).
Definition lit_piece (c : ascii) : pg.atom * pg.quant := (pg.Lit c, pg.Once).

(** The text [fmt.Sprintf(statementSQL, ...)] produces, written out. *)
Definition statementQuery (optionalFields sourceTable queryMarkerRegex : string) : string :=
  LF ++ "SELECT userid, query, calls, total_time, rows, shared_blks_hit, shared_blks_read,"
  ++ LF ++ TAB ++ TAB ++ TAB
  ++ " shared_blks_dirtied, shared_blks_written, local_blks_hit, local_blks_read,"
  ++ LF ++ TAB ++ TAB ++ TAB
  ++ " local_blks_dirtied, local_blks_written, temp_blks_read, temp_blks_written,"
  ++ LF ++ TAB ++ TAB ++ TAB
  ++ " blk_read_time, blk_write_time, " ++ optionalFields
  ++ LF ++ TAB ++ "FROM " ++ sourceTable
  ++ LF ++ " WHERE query !~* '^" ++ queryMarkerRegex
  ++ "' AND query <> '<insufficient privilege>'"
  ++ LF ++ TAB ++ TAB ++ TAB
  ++ " AND query NOT LIKE 'DEALLOCATE %'"
  ++ LF ++ TAB ++ TAB ++ TAB
  ++ " AND dbid IN (SELECT oid FROM pg_database WHERE datname = current_database())".

(** ** Sample inputs *)

(** A row of the source relation with the two columns the filter reads. *)
Definition row_of (dbid : Z) (query : string) : pg.Row :=
  fun column =>
    if String.eqb column "query" then pg.VText query
    else if String.eqb column "dbid" then pg.VInt dbid
    else pg.VNull.

Definition sample_catalog : pg.Catalog :=
  {| pg.pg_database := [(1%Z, "template1"); (16384%Z, "app")];
     pg.current_database := "app" |}.

Definition collector_marker : string := "/* pganalyze-collector */ ".

(** ** Reading a trace *)

Definition prepared (t : list sql.event) : list string :=
  omap (fun e => match e with sql.Prepare q => Some q | _ => None end) t.

Definition executed (t : list sql.event) : list string :=
  omap (fun e => match e with sql.Exec q => Some q | _ => None end) t.

(** [db.QueryRow(q).Scan(&enabled)] returns a non-nil error in state [w]. *)
Definition query_fails {W R : Type} (db : sql.DB W R) (q : string) (w : W) : Prop :=
  exists e : sql.error, fst (sql.db_QueryRowScanBool db q w) = inl e.

(** ** Scripted servers

    The state counts the [db.Prepare] calls answered so far; the probe,
    [db.Exec] and [stmt.Query] answer the same at every call. *)

Record Script := {
  on_probe : sql.error + bool;
  on_prepare : list (sql.error + sql.Stmt);
  on_exec : option sql.error;
  on_query : sql.error + sql.Rows dbstats.Statement
}.

Definition scripted (s : Script) : sql.DB nat dbstats.Statement :=
  {| sql.db_QueryRowScanBool := fun _ w => (on_probe s, w);
     sql.db_Prepare := fun _ w =>
       (nth w (on_prepare s) (inl (sql.OtherError "sql: database is closed")), S w);
     sql.db_Exec := fun _ w => (on_exec s, w);
     sql.stmt_Query := fun _ w => (on_query s, w) |}.

Definition sample_statement (userid calls : Z) (query : string) : dbstats.Statement :=
  {| dbstats.Userid := userid; dbstats.Query := query; dbstats.Calls := calls;
     dbstats.TotalTime := S754_zero false; dbstats.Rows := calls;
     dbstats.SharedBlksHit := 0; dbstats.SharedBlksRead := 0;
     dbstats.SharedBlksDirtied := 0; dbstats.SharedBlksWritten := 0;
     dbstats.LocalBlksHit := 0; dbstats.LocalBlksRead := 0;
     dbstats.LocalBlksDirtied := 0; dbstats.LocalBlksWritten := 0;
     dbstats.TempBlksRead := 0; dbstats.TempBlksWritten := 0;
     dbstats.BlkReadTime := S754_zero false; dbstats.BlkWriteTime := S754_zero false;
     dbstats.Queryid := None; dbstats.MinTime := None; dbstats.MaxTime := None;
     dbstats.MeanTime := None; dbstats.StddevTime := None |}.

Definition no_rows : sql.Rows dbstats.Statement :=
  {| sql.rows_next := []; sql.rows_Err := None |}.

Definition permission_denied : sql.error :=
  sql.PqError "42501" "permission denied for relation pg_proc".

Definition undefined_table : sql.error :=
  sql.PqError "42P01" "relation pg_stat_statements does not exist".

(** The probe is refused; everything else succeeds. *)
Definition probe_refused : Script :=
  {| on_probe := inl permission_denied;
     on_prepare := [inr 1%nat];
     on_exec := None;
     on_query := inr no_rows |}.

(** No helper, and the connection is lost when the query is prepared:
    [db.Prepare] returns [driver.ErrBadConn], which is not a [*pq.Error]. *)
Definition connection_lost : Script :=
  {| on_probe := inr false;
     on_prepare := [inl (sql.OtherError "driver: bad connection")];
     on_exec := None;
     on_query := inr no_rows |}.

(** No helper, the view is missing, the repair succeeds and so does the
    second [db.Prepare]. *)
Definition extension_missing : Script :=
  {| on_probe := inr false;
     on_prepare := [inl undefined_table; inr 2%nat];
     on_exec := None;
     on_query := inr no_rows |}.

(** The server cancels the statement after the first row was sent:
    [rows.Next()] returns false and [rows.Err()] holds the error. *)
Definition cancelled_after_one_row : Script :=
  {| on_probe := inr false;
     on_prepare := [inr 1%nat];
     on_exec := None;
     on_query := inr
       {| sql.rows_next := [inr (sample_statement 10 3 "SELECT 1")];
          sql.rows_Err :=
            Some (sql.PqError "57014" "canceling statement due to statement timeout") |} |}.

Definition pg96 : dbstats.PostgresVersion := {| dbstats.Numeric := 90600 |}.

Ltac run_db :=
  unfold sql.result, sql.trace, sql.run, dbstats.GetStatements, dbstats.queryStatements,
    dbstats.statementStatsHelperExists, postgres.connectedAsSuperUser,
    postgres.connectedAsMonitoringRole, postgres.statsHelperExists,
    sql.bind, sql.call, sql.emit, sql.ret;
  cbn [fst snd].

Ltac answer :=
  match goal with
  | |- context [sql.db_QueryRowScanBool ?d ?q ?w] =>
      destruct (sql.db_QueryRowScanBool d q w) as [[?|[|]] ?] eqn:?
  | |- context [sql.db_Prepare ?d ?q ?w] =>
      destruct (sql.db_Prepare d q w) as [[[? ?|?]|?] ?] eqn:?
  | |- context [sql.db_Exec ?d ?q ?w] =>
      destruct (sql.db_Exec d q w) as [[?|] ?] eqn:?
  | |- context [sql.stmt_Query ?d ?q ?w] =>
      destruct (sql.stmt_Query d q w) as [[?|?] ?] eqn:?
  | |- context [String.eqb ?a ?b] => destruct (String.eqb a b) eqn:?
  end; cbn [fst snd].

Definition pg93 : dbstats.PostgresVersion := {| dbstats.Numeric := 90300 |}.

(** A full row of the source relation: text in [query], floats in the
    time columns, 7 elsewhere. *)
Definition stat_row : pg.Row :=
  fun column =>
    if String.eqb column "query" then pg.VText "SELECT 1"
    else if existsb (String.eqb column)
              ["total_time"; "blk_read_time"; "blk_write_time";
               "min_time"; "max_time"; "mean_time"; "stddev_time"]
    then pg.VFloat (S754_zero false)
    else pg.VInt 7.

Definition field_of {A : Type} (f : dbstats.Statement -> A)
  (r : sql.error + dbstats.Statement) : option A :=
  match r with
  | inr st => Some (f st)
  | inl _ => None
  end.

Definition statement_key : state.EntityKey := (16384%Z, 10%Z, 42%Z).

(** A snapshot with one statement, whose counters are [calls] and
    [rows]. *)
Definition snapshot (at_time calls rows : Z) : state.PersistedState :=
  {| state.CollectedAt := at_time;
     state.DatabaseOidsWithLocalCatalog := [16384%Z];
     state.StatementStats :=
       {[ statement_key := {[ "calls" := calls; "rows" := rows ]} ]};
     state.RelationStats := ∅;
     state.IndexStats := ∅;
     state.FunctionStats := ∅;
     state.DataDirectory := "/var/lib/postgresql";
     state.System := {[ "cpu_user" := at_time ]};
     state.CollectorStats := ∅ |}.

Definition stale_container : state.StateOnDisk :=
  {| state.FormatVersion := 2;
     state.PrevStateByAPIKey := {[ "key-1" := snapshot 1 100 50 ]} |}.

(** ** Further vocabulary *)

(** The calls on the prepared statement and on its rows, in order. *)
Definition lifecycle (t : list sql.event) : list sql.event :=
  List.filter
    (fun e => match e with
              | sql.StmtQuery | sql.RowsClose | sql.StmtClose => true
              | _ => false
              end) t.

(** Drops the backslash in front of each [*] and [/]. *)
Fixpoint unescape (s : string) : string :=
  match s with
  | EmptyString => EmptyString
  | String c rest =>
      if Ascii.eqb c BACKSLASH
      then match rest with
           | String k rest' =>
               if Ascii.eqb k "*" || Ascii.eqb k "/"
               then String k (unescape rest')
               else String c (unescape rest)
           | EmptyString => String c EmptyString
           end
      else String c (unescape rest)
  end.

(** The helper is found, and preparing the query on it fails with
    undefined_table. *)
Definition helper_query_fails : Script :=
  {| on_probe := inr true;
     on_prepare := [inl undefined_table];
     on_exec := None;
     on_query := inr no_rows |}.

(** The second row cannot be scanned. *)
Definition second_row_unscannable : Script :=
  {| on_probe := inr false;
     on_prepare := [inr 1%nat];
     on_exec := None;
     on_query := inr
       {| sql.rows_next :=
            [inr (sample_statement 10 3 "SELECT 1");
             inl (sql.OtherError "sql: Scan error on column index 2");
             inr (sample_statement 10 5 "SELECT 2")];
          sql.rows_Err := None |} |}.

(** Two rows, both scanned. *)
Definition two_rows : Script :=
  {| on_probe := inr false;
     on_prepare := [inr 1%nat];
     on_exec := None;
     on_query := inr
       {| sql.rows_next :=
            [inr (sample_statement 10 3 "SELECT 1");
             inr (sample_statement 11 5 "SELECT 2")];
          sql.rows_Err := None |} |}.

(** What [stat_row] scans into when every optional column is selected. *)
Definition stat_statement : dbstats.Statement :=
  {| dbstats.Userid := 7; dbstats.Query := "SELECT 1"; dbstats.Calls := 7;
     dbstats.TotalTime := S754_zero false; dbstats.Rows := 7;
     dbstats.SharedBlksHit := 7; dbstats.SharedBlksRead := 7;
     dbstats.SharedBlksDirtied := 7; dbstats.SharedBlksWritten := 7;
     dbstats.LocalBlksHit := 7; dbstats.LocalBlksRead := 7;
     dbstats.LocalBlksDirtied := 7; dbstats.LocalBlksWritten := 7;
     dbstats.TempBlksRead := 7; dbstats.TempBlksWritten := 7;
     dbstats.BlkReadTime := S754_zero false; dbstats.BlkWriteTime := S754_zero false;
     dbstats.Queryid := Some 7%Z; dbstats.MinTime := Some (S754_zero false);
     dbstats.MaxTime := Some (S754_zero false);
     dbstats.MeanTime := Some (S754_zero false);
     dbstats.StddevTime := Some (S754_zero false) |}.

(** The messages handed to the logger, in order. *)
Definition printed (t : list sql.event) : list sql.event :=
  List.filter
    (fun e => match e with
              | sql.PrintVerbose _ | sql.PrintInfo _ => true
              | _ => false
              end) t.

(** ** A server that answers the acquisition query by its meaning *)

(** The optional-field lists and the sources [GetStatements] chooses
    from. *)
Definition optionalFieldSets : list string :=
  [dbstats.statementSQLDefaultOptionalFields;
   dbstats.statementSQLpg94OptionalFields;
   dbstats.statementSQLpg95OptionalFields].

Definition sourceTables : list string :=
  ["pganalyze.get_stat_statements()"; "pg_stat_statements"].

(** [db] runs the acquisition query as its text says: whenever the text
    built from one of the field lists and one of the sources was prepared
    and the statement then queried, the rows handed out are those of some
    source relation that pass the filter, projected on the select list
    and scanned. *)
Definition answers_by_meaning {W : Type} (marker : string)
  (db : sql.DB W dbstats.Statement) : Prop :=
  forall (optionalFields sourceTable : string) (w : W) (stmt : sql.Stmt)
    (rows : sql.Rows dbstats.Statement),
    In optionalFields optionalFieldSets ->
    In sourceTable sourceTables ->
    fst (sql.db_Prepare db
           (marker ++ statementQuery optionalFields sourceTable
                        (dbstats.queryMarkerRegex marker)) w) = inr stmt ->
    fst (sql.stmt_Query db stmt
           (snd (sql.db_Prepare db
                   (marker ++ statementQuery optionalFields sourceTable
                                (dbstats.queryMarkerRegex marker)) w))) = inr rows ->
    exists (cat : pg.Catalog) (source : list pg.Row),
      dbstats.acquired optionalFields (dbstats.queryMarkerRegex marker) cat source
      = Some (sql.rows_next rows).

Fixpoint index_of (text : string) (texts : list string) (i : nat) : option nat :=
  match texts with
  | [] => None
  | t :: rest => if String.eqb text t then Some i else index_of text rest (S i)
  end.

(** A server without state: the helper exists or not, the view exists,
    and [source] are the rows of the relation the query reads.  The
    statement handle is the index of the field list of the text
    prepared. *)
Definition reference_server (marker : string) (helper : bool) (cat : pg.Catalog)
  (source : list pg.Row) : sql.DB unit dbstats.Statement :=
  let sourceTable :=
    if helper then "pganalyze.get_stat_statements()" else "pg_stat_statements" in
  {| sql.db_QueryRowScanBool := fun _ w =>
       (if helper then inr true
        else inl (sql.OtherError "sql: no rows in result set"), w);
     sql.db_Prepare := fun text w =>
       (match index_of text
                (List.map (fun fields =>
                             marker ++ statementQuery fields sourceTable
                                         (dbstats.queryMarkerRegex marker))
                   optionalFieldSets) 0 with
        | Some i => inr i
        | None => inl (sql.PqError "42601" "syntax error")
        end, w);
     sql.db_Exec := fun _ w => (None, w);
     sql.stmt_Query := fun stmt w =>
       (match nth_error optionalFieldSets stmt with
        | Some fields =>
            match dbstats.acquired fields (dbstats.queryMarkerRegex marker) cat source with
            | Some next => inr {| sql.rows_next := next; sql.rows_Err := None |}
            | None => inl (sql.PqError "2201B" "invalid regular expression")
            end
        | None => inl (sql.OtherError "sql: statement is closed")
        end, w) |}.

Definition server_catalog : pg.Catalog :=
  {| pg.pg_database := [(1%Z, "template1"); (7%Z, "app")];
     pg.current_database := "app" |}.

(** [stat_row] (database 7, every optional column set), and a statement
    of the collector itself. *)
Definition server_rows : list pg.Row :=
  [stat_row;
   fun column =>
     if String.eqb column "query"
     then pg.VText "/* pganalyze-collector */ SELECT 1 AS enabled"
     else stat_row column].

(** [stat_row] as a server older than 9.4 is asked for it. *)
Definition stat_statement_93 : dbstats.Statement :=
  {| dbstats.Userid := 7; dbstats.Query := "SELECT 1"; dbstats.Calls := 7;
     dbstats.TotalTime := S754_zero false; dbstats.Rows := 7;
     dbstats.SharedBlksHit := 7; dbstats.SharedBlksRead := 7;
     dbstats.SharedBlksDirtied := 7; dbstats.SharedBlksWritten := 7;
     dbstats.LocalBlksHit := 7; dbstats.LocalBlksRead := 7;
     dbstats.LocalBlksDirtied := 7; dbstats.LocalBlksWritten := 7;
     dbstats.TempBlksRead := 7; dbstats.TempBlksWritten := 7;
     dbstats.BlkReadTime := S754_zero false; dbstats.BlkWriteTime := S754_zero false;
     dbstats.Queryid := None; dbstats.MinTime := None; dbstats.MaxTime := None;
     dbstats.MeanTime := None; dbstats.StddevTime := None |}.

(** * Properties *)

(** ** Strings *)

Example Trim_ex : strings.Trim "  /* a b */ " " " = "/* a b */".
Proof. reflexivity. Qed.

Example Replace_ex : strings.Replace "/* a */" "*" "\*" = "/\* a \*/".
Proof. reflexivity. Qed.

Example Replace_ex2 : strings.Replace "xabababy" "aba" "-" = "x-baby".
Proof. reflexivity. Qed.

Example Sprintf_ex : fmt.Sprintf "a %s b %s c %%" ["X"; "Y"] = "a X b Y c %".
Proof. reflexivity. Qed.

Lemma append_assoc' (a b c : string) : (a ++ b) ++ c = a ++ (b ++ c).
Proof. induction a as [|x a IH]; simpl; [reflexivity | f_equal; exact IH]. Qed.

Lemma prefix_append (p s : string) : String.prefix p (p ++ s) = true.
Proof.
  induction p as [|c p IH]; simpl.
  - now destruct s.
  - destruct (ascii_dec c c) as [_|ne]; [exact IH | now destruct ne].
Qed.

Lemma Sprintf_statementSQL (o src rx : string) :
  fmt.Sprintf dbstats.statementSQL [o; src; rx] = statementQuery o src rx.
Proof.
  vm_compute. reflexivity.
Qed.

(** ** The marker pattern *)

Lemma prefix_empty (s : string) : String.prefix "" s = true.
Proof. now destruct s. Qed.

Lemma Replace_byte (a : ascii) (new s : string) :
  strings.Replace s (String a "") new = replace_byte a new s.
Proof.
  unfold strings.Replace.
  induction s as [|c s IH]; [reflexivity|].
  cbn [strings.replace_from replace_byte String.prefix String.length Nat.sub].
  destruct (ascii_dec a c) as [->|ne].
  - rewrite prefix_empty, Ascii.eqb_refl. now rewrite IH.
  - assert (Ascii.eqb c a = false) as -> by (apply Ascii.eqb_neq; congruence).
    simpl. now rewrite IH.
Qed.

Lemma replace_byte_app (a : ascii) (new x y : string) :
  replace_byte a new (x ++ y) = replace_byte a new x ++ replace_byte a new y.
Proof.
  induction x as [|c x IH]; [reflexivity|].
  simpl. rewrite IH. now rewrite append_assoc'.
Qed.

Lemma escape_two_replaces (s : string) :
  replace_byte "/" "\/" (replace_byte "*" "\*" s) = escape s.
Proof.
  induction s as [|c s IH]; [reflexivity|].
  cbn [replace_byte escape]. rewrite replace_byte_app, IH. f_equal.
  unfold escape_byte.
  destruct (Ascii.eqb c "*") eqn:Estar; [reflexivity|].
  cbn [replace_byte]. now destruct (Ascii.eqb c "/").
Qed.

(** The pattern is the marker, trimmed of blanks, with each [*] and [/]
    preceded by a backslash. *)
Lemma queryMarkerRegex_escape (marker : string) :
  dbstats.queryMarkerRegex marker = escape (strings.Trim marker " ").
Proof.
  unfold dbstats.queryMarkerRegex.
  change "*" with (String "*"%char "") at 1.
  change "/" with (String "/"%char "") at 1.
  rewrite !Replace_byte. apply escape_two_replaces.
Qed.

Lemma lex_escape_byte (c : ascii) (rest : string) :
  literal_in_pattern c = true ->
  pg.lex (escape_byte c ++ rest) = option_map (cons (lit_token c)) (pg.lex rest).
Proof.
  intros H.
  destruct c as [b0 b1 b2 b3 b4 b5 b6 b7];
    destruct b0, b1, b2, b3, b4, b5, b6, b7;
    vm_compute in H; try discriminate H; reflexivity.
Qed.

Lemma lex_escape (s : string) :
  forallb_string literal_in_pattern s = true ->
  pg.lex (escape s) = Some (List.map lit_token (list_ascii_of_string s)).
Proof.
  induction s as [|c s IH]; intros H; [reflexivity|].
  cbn [forallb_string] in H. apply andb_prop in H as [Hc Hs].
  cbn [escape list_ascii_of_string List.map].
  rewrite (lex_escape_byte c _ Hc), (IH Hs). reflexivity.
Qed.

Lemma parse_literals (l : list ascii) :
  pg.parse (List.map lit_token l) = Some (List.map lit_piece l).
Proof.
  induction l as [|c l IH]; [reflexivity|].
  cbn [List.map pg.parse]. fold (List.map lit_token l).
  destruct l as [|d l]; [reflexivity|].
  cbn [List.map lit_token] in *. rewrite IH. reflexivity.
Qed.

Lemma match_here_literals (l : list ascii) (q : string) :
  pg.match_here (List.map lit_piece l) q = HasPrefixFold q (string_of_list_ascii l).
Proof.
  revert q. induction l as [|c l IH]; intros q; [reflexivity|].
  destruct q as [|d q]; [reflexivity|].
  cbn [List.map lit_piece pg.match_here string_of_list_ascii HasPrefixFold pg.atom_matches].
  now rewrite IH.
Qed.

Lemma regex_of_marker (marker query : string) :
  forallb_string literal_in_pattern (strings.Trim marker " ") = true ->
  pg.regex_imatch query ("^" ++ dbstats.queryMarkerRegex marker)
  = Some (HasPrefixFold query (strings.Trim marker " ")).
Proof.
  intros H. rewrite queryMarkerRegex_escape.
  cbn [String.append pg.regex_imatch].
  rewrite (lex_escape _ H), parse_literals. cbn [option_map].
  now rewrite match_here_literals, string_of_list_ascii_of_string.
Qed.

Lemma like_many_end (q : string) : pg.like_many (pg.like_tokens []) q = true.
Proof. induction q as [|c q IH]; [reflexivity | exact IH]. Qed.

Lemma like_literal_then_any (l : list ascii) (q : string) :
  pg.like_tokens (List.map pg.LChar l ++ [pg.LMany])%list q
  = String.prefix (string_of_list_ascii l) q.
Proof.
  revert q. induction l as [|a l IH]; intros q.
  - cbn. rewrite like_many_end. now destruct q.
  - destruct q as [|d q]; [reflexivity|].
    cbn [List.map app pg.like_tokens string_of_list_ascii String.prefix].
    destruct (ascii_dec a d) as [->|ne].
    + rewrite Ascii.eqb_refl. apply IH.
    + now apply Ascii.eqb_neq in ne as ->.
Qed.

Lemma like_DEALLOCATE (q : string) :
  pg.like q "DEALLOCATE %" = HasPrefix q "DEALLOCATE ".
Proof.
  unfold pg.like, HasPrefix.
  change (pg.like_lex "DEALLOCATE %")
    with (List.map pg.LChar (list_ascii_of_string "DEALLOCATE ") ++ [pg.LMany])%list.
  now rewrite like_literal_then_any.
Qed.

Lemma current_database_oids_In (cat : pg.Catalog) (dbid : Z) :
  existsb (Z.eqb dbid) (pg.current_database_oids cat) = true ->
  In (dbid, pg.current_database cat) (pg.pg_database cat).
Proof.
  intros H. apply List.existsb_exists in H as (x & Hx & Heq).
  apply Z.eqb_eq in Heq as <-.
  unfold pg.current_database_oids in Hx.
  apply List.in_map_iff in Hx as ([oid name] & Hfst & Hin).
  apply List.filter_In in Hin as [Hin Hname].
  cbn in Hfst, Hname. apply String.eqb_eq in Hname. now subst.
Qed.

(** What the filter of [statementSQL] keeps, clause by clause. *)
Lemma where_clause_eq (marker : string) (cat : pg.Catalog) (r : pg.Row)
  (query : string) (dbid : Z) :
  forallb_string literal_in_pattern (strings.Trim marker " ") = true ->
  r "query" = pg.VText query ->
  r "dbid" = pg.VInt dbid ->
  dbstats.where_clause (dbstats.queryMarkerRegex marker) cat r
  = Some (negb (HasPrefixFold query (strings.Trim marker " "))
          && negb (String.eqb query "<insufficient privilege>")
          && negb (HasPrefix query "DEALLOCATE ")
          && existsb (Z.eqb dbid) (pg.current_database_oids cat)).
Proof.
  intros H Hq Hd. unfold dbstats.where_clause.
  rewrite Hq, Hd, (regex_of_marker _ _ H), like_DEALLOCATE. reflexivity.
Qed.

(** C1, as amended.  When the marker, trimmed of blanks, holds only bytes
    the pattern matches literally ([*], [/], and printable ASCII that is
    neither a regular-expression metacharacter nor a quote), the pattern
    built by [GetStatements] matches exactly the query texts that begin
    with the trimmed marker up to ASCII letter case, and the filter of the
    acquisition query drops a row on account of the marker exactly
    then. *)
Theorem marker_excludes_folded_prefix (marker : string) :
  forallb_string literal_in_pattern (strings.Trim marker " ") = true ->
  forall (cat : pg.Catalog) (r : pg.Row) (query : string) (dbid : Z),
    r "query" = pg.VText query ->
    r "dbid" = pg.VInt dbid ->
    pg.regex_imatch query ("^" ++ dbstats.queryMarkerRegex marker)
    = Some (HasPrefixFold query (strings.Trim marker " "))
    /\ dbstats.where_clause (dbstats.queryMarkerRegex marker) cat r
       = Some (negb (HasPrefixFold query (strings.Trim marker " "))
               && negb (String.eqb query "<insufficient privilege>")
               && negb (HasPrefix query "DEALLOCATE ")
               && existsb (Z.eqb dbid) (pg.current_database_oids cat)).
Proof.
  intros H cat r query dbid Hq Hd. split.
  - now apply regex_of_marker.
  - now apply where_clause_eq.
Qed.

Lemma marker_excludes_folded_prefix_witness :
  forallb_string literal_in_pattern (strings.Trim collector_marker " ") = true
  /\ pg.regex_imatch "/* pganalyze-collector */ SELECT 1"
       ("^" ++ dbstats.queryMarkerRegex collector_marker) = Some true
  /\ dbstats.where_clause (dbstats.queryMarkerRegex collector_marker) sample_catalog
       (row_of 16384 "/* pganalyze-collector */ SELECT 1") = Some false.
Proof.
  split; [reflexivity|].
  exact (marker_excludes_folded_prefix collector_marker eq_refl sample_catalog
           (row_of 16384 "/* pganalyze-collector */ SELECT 1")
           "/* pganalyze-collector */ SELECT 1" 16384%Z eq_refl eq_refl).
Defined.

(** C1, as stated, fails: with a marker that holds the metacharacter [.]
    the filter drops a row of the current database whose text does not
    begin with the marker, because the unescaped [.] matches any byte. *)
Lemma marker_with_dot_excludes_unrelated_row :
  HasPrefix "/* collector v1x0 */ SELECT 1" "/* collector v1.0 */ " = false
  /\ pg.regex_imatch "/* collector v1x0 */ SELECT 1"
       ("^" ++ dbstats.queryMarkerRegex "/* collector v1.0 */ ") = Some true
  /\ dbstats.where_clause (dbstats.queryMarkerRegex "/* collector v1.0 */ ")
       sample_catalog (row_of 16384 "/* collector v1x0 */ SELECT 1") = Some false
  /\ dbstats.where_clause (dbstats.queryMarkerRegex collector_marker)
       sample_catalog (row_of 16384 "/* collector v1x0 */ SELECT 1") = Some true.
Proof. repeat split; vm_compute; reflexivity. Qed.

(** The other direction: an unescaped [+] makes the filter keep a row that
    does begin with the marker. *)
Example marker_with_plus_keeps_marked_row :
  HasPrefix "/* c+ agent */ SELECT 1" "/* c+ agent */ " = true
  /\ pg.regex_imatch "/* c+ agent */ SELECT 1"
       ("^" ++ dbstats.queryMarkerRegex "/* c+ agent */ ") = Some false
  /\ dbstats.where_clause (dbstats.queryMarkerRegex "/* c+ agent */ ")
       sample_catalog (row_of 16384 "/* c+ agent */ SELECT 1") = Some true.
Proof. repeat split; vm_compute; reflexivity. Qed.

(** With the marker of the collector the pattern ignores letter case and
    the blank that ends the marker. *)
Example collector_marker_case_and_blank :
  dbstats.queryMarkerRegex collector_marker = "\/\* pganalyze-collector \*\/"
  /\ HasPrefix "/* PGANALYZE-COLLECTOR */SELECT 1" collector_marker = false
  /\ pg.regex_imatch "/* PGANALYZE-COLLECTOR */SELECT 1"
       ("^" ++ dbstats.queryMarkerRegex collector_marker) = Some true.
Proof. repeat split; vm_compute; reflexivity. Qed.

(** The rows delivered are the scans of the source rows that pass the
    filter, in order. *)
Lemma acquired_rows (optionalFields queryMarkerRegex : string) (cat : pg.Catalog)
  (source : list pg.Row) (out : list (sql.error + dbstats.Statement)) :
  dbstats.acquired optionalFields queryMarkerRegex cat source = Some out ->
  out = List.map (dbstats.scan_selected optionalFields)
          (List.filter
             (fun r => match dbstats.where_clause queryMarkerRegex cat r with
                       | Some keep => keep
                       | None => false
                       end) source).
Proof.
  revert out. induction source as [|r source IH]; intros out H;
    cbn [dbstats.acquired] in H.
  - now injection H as <-.
  - destruct (dbstats.where_clause queryMarkerRegex cat r) as [keep|] eqn:Hw;
      [|discriminate H].
    destruct (dbstats.acquired optionalFields queryMarkerRegex cat source) as [tail|];
      [|discriminate H].
    injection H as <-. cbn [List.filter]. rewrite Hw.
    destruct keep; cbn [List.map]; now rewrite (IH tail eq_refl).
Qed.

(** C7.  The text sent is the one written out in [statementQuery], and a
    row passes its filter only if its query text is not
    [<insufficient privilege>], does not begin with [DEALLOCATE ] and its
    [dbid] is the oid of a [pg_database] row named [current_database()]. *)
Theorem where_clause_housekeeping_and_database
  (optionalFields sourceTable queryMarkerRegex : string) :
  fmt.Sprintf dbstats.statementSQL [optionalFields; sourceTable; queryMarkerRegex]
  = statementQuery optionalFields sourceTable queryMarkerRegex
  /\ forall (cat : pg.Catalog) (r : pg.Row),
       dbstats.where_clause queryMarkerRegex cat r = Some true ->
       exists (query : string) (dbid : Z),
         r "query" = pg.VText query
         /\ r "dbid" = pg.VInt dbid
         /\ query <> "<insufficient privilege>"
         /\ HasPrefix query "DEALLOCATE " = false
         /\ In (dbid, pg.current_database cat) (pg.pg_database cat).
Proof.
  split; [apply Sprintf_statementSQL|].
  intros cat r H. unfold dbstats.where_clause in H.
  destruct (r "query") as [| | |query] eqn:Hq; try discriminate H.
  destruct (r "dbid") as [|dbid| |] eqn:Hd; try discriminate H.
  destruct (pg.regex_imatch query ("^" ++ queryMarkerRegex)) as [marked|];
    [|discriminate H].
  cbn [option_map] in H. injection H as H.
  rewrite like_DEALLOCATE in H.
  apply andb_prop in H as [H Hdb]. apply andb_prop in H as [H Hlike].
  apply andb_prop in H as [_ Hpriv].
  exists query, dbid. repeat split.
  - intros ->. discriminate Hpriv.
  - now apply negb_true_iff in Hlike.
  - now apply current_database_oids_In.
Qed.

Lemma where_clause_housekeeping_and_database_witness :
  dbstats.where_clause (dbstats.queryMarkerRegex collector_marker) sample_catalog
    (row_of 16384 "SELECT 1") = Some true
  /\ exists (query : string) (dbid : Z),
       row_of 16384 "SELECT 1" "query" = pg.VText query
       /\ row_of 16384 "SELECT 1" "dbid" = pg.VInt dbid
       /\ query <> "<insufficient privilege>"
       /\ HasPrefix query "DEALLOCATE " = false
       /\ In (dbid, pg.current_database sample_catalog) (pg.pg_database sample_catalog).
Proof.
  split; [reflexivity|].
  apply (proj2 (where_clause_housekeeping_and_database
                  dbstats.statementSQLpg95OptionalFields "pg_stat_statements"
                  (dbstats.queryMarkerRegex collector_marker))).
  reflexivity.
Defined.

Example housekeeping_rows_dropped :
  dbstats.where_clause (dbstats.queryMarkerRegex collector_marker) sample_catalog
    (row_of 16384 "DEALLOCATE pdo_stmt_00000001") = Some false
  /\ dbstats.where_clause (dbstats.queryMarkerRegex collector_marker) sample_catalog
       (row_of 16384 "<insufficient privilege>") = Some false
  /\ dbstats.where_clause (dbstats.queryMarkerRegex collector_marker) sample_catalog
       (row_of 1 "SELECT 1") = Some false.
Proof. repeat split; vm_compute; reflexivity. Qed.

(** ** Probes *)

(** C6.  Each probe returns false whenever its query fails, and a probe
    has no other way to end than returning a boolean; after a failed
    helper probe [GetStatements] goes on and prepares the query on the
    standard view. *)
Theorem probes_return_false_on_error
  (marker : string) (W R : Type) (db : sql.DB W R) (w : W) (statsHelper : string)
  (dbmarker : string) (V94 V95 : Z) (sdb : sql.DB W dbstats.Statement)
  (version : dbstats.PostgresVersion) :
  (query_fails db (marker ++ postgres.connectedAsSuperUserSQL) w ->
   sql.result (postgres.connectedAsSuperUser marker db) w = false)
  /\ (query_fails db (marker ++ postgres.connectedAsMonitoringRoleSQL) w ->
      sql.result (postgres.connectedAsMonitoringRole marker db) w = false)
  /\ (query_fails db (marker ++ fmt.Sprintf postgres.statsHelperSQL [statsHelper]) w ->
      sql.result (postgres.statsHelperExists marker db statsHelper) w = false)
  /\ (query_fails sdb (dbmarker ++ dbstats.statementStatsHelperSQL) w ->
      sql.result (dbstats.statementStatsHelperExists dbmarker sdb) w = false
      /\ head (prepared (sql.trace (dbstats.GetStatements dbmarker V94 V95 sdb version) w))
         = Some (dbmarker ++ statementQuery (dbstats.optionalFieldsFor V94 V95 version)
                               "pg_stat_statements" (dbstats.queryMarkerRegex dbmarker))).
Proof.
  assert (probe : forall (R' : Type) (d : sql.DB W R') (q : string),
             query_fails d q w ->
             exists e w', sql.db_QueryRowScanBool d q w = (inl e, w')).
  { intros R' d q [e He].
    destruct (sql.db_QueryRowScanBool d q w) as [[e'|b] w']; cbn in He;
      [now exists e', w' | discriminate He]. }
  split; [|split; [|split]]; intros H;
    apply probe in H as (e & w' & He); [| | |split]; run_db;
    try rewrite <- Sprintf_statementSQL; rewrite He; cbn [fst snd app];
    try reflexivity.
  repeat answer; reflexivity.
Qed.

Lemma probes_return_false_on_error_witness :
  query_fails (scripted probe_refused)
    (collector_marker ++ dbstats.statementStatsHelperSQL) 0%nat
  /\ sql.result (dbstats.statementStatsHelperExists collector_marker
                   (scripted probe_refused)) 0%nat = false.
Proof.
  assert (H : query_fails (scripted probe_refused)
                (collector_marker ++ dbstats.statementStatsHelperSQL) 0%nat)
    by (exists permission_denied; reflexivity).
  split; [exact H|].
  exact (proj1 (proj2 (proj2 (proj2
    (probes_return_false_on_error collector_marker nat dbstats.Statement
       (scripted probe_refused) 0%nat "get_stat_statements"
       collector_marker 90400 90500 (scripted probe_refused) pg96))) H)).
Defined.

(** ** The texts sent *)

(** C9.  Every SQL text sent by [GetStatements] (probe, acquisition query,
    CREATE EXTENSION) and by each probe begins with [QueryMarkerSQL]. *)
Theorem every_sql_text_carries_marker
  (dbmarker : string) (V94 V95 : Z) (W R : Type) (sdb : sql.DB W dbstats.Statement)
  (version : dbstats.PostgresVersion) (marker : string) (db : sql.DB W R)
  (statsHelper : string) (w : W) :
  Forall (fun q => HasPrefix q dbmarker = true)
    (sql.sent (sql.trace (dbstats.GetStatements dbmarker V94 V95 sdb version) w))
  /\ sql.sent (sql.trace (dbstats.statementStatsHelperExists dbmarker sdb) w)
     = [dbmarker ++ dbstats.statementStatsHelperSQL]
  /\ sql.sent (sql.trace (postgres.connectedAsSuperUser marker db) w)
     = [marker ++ postgres.connectedAsSuperUserSQL]
  /\ sql.sent (sql.trace (postgres.connectedAsMonitoringRole marker db) w)
     = [marker ++ postgres.connectedAsMonitoringRoleSQL]
  /\ sql.sent (sql.trace (postgres.statsHelperExists marker db statsHelper) w)
     = [marker ++ fmt.Sprintf postgres.statsHelperSQL [statsHelper]]
  /\ dbstats.createExtensionSQL dbmarker
     = dbmarker ++ "CREATE EXTENSION IF NOT EXISTS pg_stat_statements".
Proof.
  split; [|repeat split; run_db; answer; reflexivity].
  run_db. repeat answer.
  all: cbn [sql.sent omap list_omap app sql.sql_text].
  all: repeat constructor; apply prefix_append.
Qed.

(** The acquisition query is prepared once, or twice with the same text. *)
Lemma prepared_once_or_twice
  (marker : string) (V94 V95 : Z) (W : Type) (db : sql.DB W dbstats.Statement)
  (version : dbstats.PostgresVersion) (w : W) :
  let helper := sql.result (dbstats.statementStatsHelperExists marker db) w in
  let sqlText :=
    marker ++ fmt.Sprintf dbstats.statementSQL
                [dbstats.optionalFieldsFor V94 V95 version;
                 dbstats.sourceTableFor helper; dbstats.queryMarkerRegex marker] in
  let t := sql.trace (dbstats.GetStatements marker V94 V95 db version) w in
  prepared t = [sqlText] \/ prepared t = [sqlText; sqlText].
Proof.
  run_db. repeat answer.
  all: cbn [prepared omap list_omap app]; auto.
Qed.


(** ** Repair and retry *)

(** X2.  The missing view with no helper in use: one CREATE EXTENSION,
    then at most one more [db.Prepare], and a failure of either is
    returned with a nil list; after a second [db.Prepare] that succeeds
    the function goes on as after a first one. *)
Lemma undefined_table_repaired_once
  (marker : string) (V94 V95 : Z) (W : Type) (db : sql.DB W dbstats.Statement)
  (version : dbstats.PostgresVersion) (w : W) (Message : string) :
  let probe := sql.db_QueryRowScanBool db (marker ++ dbstats.statementStatsHelperSQL) w in
  let sqlText :=
    marker ++ statementQuery (dbstats.optionalFieldsFor V94 V95 version)
                "pg_stat_statements" (dbstats.queryMarkerRegex marker) in
  let first := sql.db_Prepare db sqlText (snd probe) in
  let repair := sql.db_Exec db (dbstats.createExtensionSQL marker) (snd first) in
  let second := sql.db_Prepare db sqlText (snd repair) in
  let t := sql.trace (dbstats.GetStatements marker V94 V95 db version) w in
  let res := sql.result (dbstats.GetStatements marker V94 V95 db version) w in
  sql.result (dbstats.statementStatsHelperExists marker db) w = false ->
  fst first = inl (sql.PqError "42P01" Message) ->
  executed t = [dbstats.createExtensionSQL marker]
  /\ match fst repair with
     | Some err => prepared t = [sqlText] /\ res = sql.Returned ([], Some err)
     | None =>
         prepared t = [sqlText; sqlText]
         /\ match fst second with
            | inl err => res = sql.Returned ([], Some err)
            | inr stmt =>
                res = sql.result (dbstats.queryStatements db stmt) (snd second)
            end
     end.
Proof.
  cbv zeta. rewrite <- Sprintf_statementSQL. run_db.
  destruct (sql.db_QueryRowScanBool _ _ w) as [[?|[|]] w0]; cbn [fst snd];
    intros Hh; try discriminate Hh; clear Hh.
  all: destruct (sql.db_Prepare _ _ w0) as [[?|?] w1]; cbn [fst snd];
    intros Hp; try discriminate Hp; injection Hp as ->.
  all: cbn [dbstats.sourceTableFor String.eqb Ascii.eqb Bool.eqb fst snd].
  all: destruct (sql.db_Exec _ _ w1) as [[?|] w2]; cbn [fst snd];
    [split; [reflexivity | split; reflexivity]|].
  all: destruct (sql.db_Prepare _ _ w2) as [[?|?] w3]; cbn [fst snd].
  all: split; [try reflexivity | split; [try reflexivity|]].
  all: try reflexivity.
  all: destruct (sql.stmt_Query _ _ w3) as [[?|?] ?]; reflexivity.
Qed.

(** X3.  A [*pq.Error] with another code, or any error while the helper
    is in use, is returned at once: no CREATE EXTENSION, no second
    [db.Prepare]. *)
Lemma other_prepare_error_returned
  (marker : string) (V94 V95 : Z) (W : Type) (db : sql.DB W dbstats.Statement)
  (version : dbstats.PostgresVersion) (w : W) (err : sql.error) :
  let probe := sql.db_QueryRowScanBool db (marker ++ dbstats.statementStatsHelperSQL) w in
  let helper := sql.result (dbstats.statementStatsHelperExists marker db) w in
  let sqlText :=
    marker ++ statementQuery (dbstats.optionalFieldsFor V94 V95 version)
                (dbstats.sourceTableFor helper) (dbstats.queryMarkerRegex marker) in
  let t := sql.trace (dbstats.GetStatements marker V94 V95 db version) w in
  fst (sql.db_Prepare db sqlText (snd probe)) = inl err ->
  helper = true
  \/ (exists Code Message, err = sql.PqError Code Message /\ Code <> "42P01") ->
  sql.result (dbstats.GetStatements marker V94 V95 db version) w
  = sql.Returned ([], Some err)
  /\ executed t = [] /\ prepared t = [sqlText].
Proof.
  cbv zeta. rewrite <- Sprintf_statementSQL. run_db.
  destruct (sql.db_QueryRowScanBool _ _ w) as [[?|[|]] w0]; cbn [fst snd].
  all: destruct (sql.db_Prepare _ _ w0) as [[?|?] w1]; cbn [fst snd];
    intros Hp; try discriminate Hp; injection Hp as ->.
  all: intros [Hh|(Code & Message & -> & Hc)]; try discriminate Hh.
  all: cbn [dbstats.sourceTableFor String.eqb Ascii.eqb Bool.eqb fst snd].
  all: try (apply String.eqb_neq in Hc; rewrite Hc).
  all: repeat split; reflexivity.
Qed.

(** With no helper in use, a [db.Prepare] error that is not a [*pq.Error]
    makes the type assertion panic. *)
Lemma prepare_error_of_other_type
  (marker : string) (V94 V95 : Z) (W : Type) (db : sql.DB W dbstats.Statement)
  (version : dbstats.PostgresVersion) (w : W) (text : string) :
  let probe := sql.db_QueryRowScanBool db (marker ++ dbstats.statementStatsHelperSQL) w in
  let sqlText :=
    marker ++ statementQuery (dbstats.optionalFieldsFor V94 V95 version)
                "pg_stat_statements" (dbstats.queryMarkerRegex marker) in
  sql.result (dbstats.statementStatsHelperExists marker db) w = false ->
  fst (sql.db_Prepare db sqlText (snd probe)) = inl (sql.OtherError text) ->
  sql.result (dbstats.GetStatements marker V94 V95 db version) w = sql.Panicked.
Proof.
  cbv zeta. rewrite <- Sprintf_statementSQL. run_db.
  destruct (sql.db_QueryRowScanBool _ _ w) as [[?|[|]] w0]; cbn [fst snd];
    intros Hh; try discriminate Hh; clear Hh.
  all: destruct (sql.db_Prepare _ _ w0) as [[?|?] w1]; cbn [fst snd];
    intros Hp; try discriminate Hp; injection Hp as ->.
  all: reflexivity.
Qed.

(** C2, the case the code misses.  No helper, and [db.Prepare] fails with
    an error that is not a [*pq.Error] (the connection is lost):
    [GetStatements] does not return that error, it panics; nothing was
    repaired and nothing retried. *)
Theorem lost_connection_on_prepare_panics :
  let run := dbstats.GetStatements collector_marker 90400 90500
               (scripted connection_lost) pg96 in
  sql.result run 0%nat = sql.Panicked
  /\ executed (sql.trace run 0%nat) = []
  /\ length (prepared (sql.trace run 0%nat)) = 1%nat.
Proof. repeat split; vm_compute; reflexivity. Qed.

Example missing_extension_is_created :
  let run := dbstats.GetStatements collector_marker 90400 90500
               (scripted extension_missing) pg96 in
  sql.result run 0%nat = sql.Returned ([], None)
  /\ executed (sql.trace run 0%nat) = [dbstats.createExtensionSQL collector_marker]
  /\ length (prepared (sql.trace run 0%nat)) = 2%nat.
Proof. repeat split; vm_compute; reflexivity. Qed.

(** ** The row loop *)

Lemma scanRows_error (next : list (sql.error + dbstats.Statement))
  (acc statements : list dbstats.Statement) (err : sql.error) :
  dbstats.scanRows next acc = (statements, Some err) -> statements = [].
Proof.
  revert acc. induction next as [|[e|row] next IH]; intros acc H; cbn in H.
  - discriminate H.
  - now injection H as <- _.
  - now apply IH in H.
Qed.

Lemma scanRows_complete (next : list (sql.error + dbstats.Statement))
  (acc statements : list dbstats.Statement) :
  dbstats.scanRows next acc = (statements, None) ->
  exists rows : list dbstats.Statement,
    next = List.map inr rows /\ statements = (acc ++ rows)%list.
Proof.
  revert acc. induction next as [|[e|row] next IH]; intros acc H; cbn in H.
  - injection H as <-. exists []. now rewrite app_nil_r.
  - discriminate H.
  - apply IH in H as (rows & -> & ->). exists (row :: rows).
    split; [reflexivity|]. now rewrite <- app_assoc.
Qed.

(** X4.  When [GetStatements] returns an error, the list it returns is
    nil, whatever had been scanned before. *)
Lemma error_comes_with_nil
  (marker : string) (V94 V95 : Z) (W : Type) (db : sql.DB W dbstats.Statement)
  (version : dbstats.PostgresVersion) (w : W)
  (statements : list dbstats.Statement) (err : sql.error) :
  sql.result (dbstats.GetStatements marker V94 V95 db version) w
  = sql.Returned (statements, Some err) ->
  statements = [].
Proof.
  run_db. repeat answer.
  all: intros H; try discriminate H.
  all: try (injection H as H _; now subst).
  all: injection H as H; now apply scanRows_error in H.
Qed.

(** C10, the case the code misses.  The iteration ends early with an
    error after one row was scanned; [rows.Err()] is never consulted, so
    [GetStatements] returns the one row with a nil error. *)
Theorem cancelled_query_returns_partial_list :
  sql.rows_Err
    match on_query cancelled_after_one_row with
    | inr rows => rows
    | inl _ => no_rows
    end
  = Some (sql.PqError "57014" "canceling statement due to statement timeout")
  /\ sql.result (dbstats.GetStatements collector_marker 90400 90500
                   (scripted cancelled_after_one_row) pg96) 0%nat
     = sql.Returned ([sample_statement 10 3 "SELECT 1"], None).
Proof. split; vm_compute; reflexivity. Qed.

(** ** Optional fields *)

Lemma Scan_optional (columns : list pg.value) (st : dbstats.Statement) :
  dbstats.Scan columns = inr st ->
  exists c18 c19 c20 c21 c22,
    drop 17 columns = [c18; c19; c20; c21; c22]
    /\ dbstats.scanNullInt c18 = inr (dbstats.Queryid st)
    /\ dbstats.scanNullFloat c19 = inr (dbstats.MinTime st)
    /\ dbstats.scanNullFloat c20 = inr (dbstats.MaxTime st)
    /\ dbstats.scanNullFloat c21 = inr (dbstats.MeanTime st)
    /\ dbstats.scanNullFloat c22 = inr (dbstats.StddevTime st).
Proof.
  intros H.
  do 22 (destruct columns as [|? columns]; [discriminate H|]).
  destruct columns; [|discriminate H].
  unfold dbstats.Scan, dbstats.and_then in H.
  repeat match type of H with
         | context [match ?x with inl _ => _ | inr _ => _ end] =>
             destruct x eqn:?; [discriminate H|]
         end.
  injection H as <-. do 5 eexists.
  split; [reflexivity|]. cbn. repeat split; assumption.
Qed.

Lemma optional_columns (r : pg.Row) :
  drop 17 (List.map (dbstats.eval_column r)
             (dbstats.select_list dbstats.statementSQLDefaultOptionalFields))
  = [pg.VNull; pg.VNull; pg.VNull; pg.VNull; pg.VNull]
  /\ drop 17 (List.map (dbstats.eval_column r)
                (dbstats.select_list dbstats.statementSQLpg94OptionalFields))
     = [r "queryid"; pg.VNull; pg.VNull; pg.VNull; pg.VNull]
  /\ drop 17 (List.map (dbstats.eval_column r)
                (dbstats.select_list dbstats.statementSQLpg95OptionalFields))
     = [r "queryid"; r "min_time"; r "max_time"; r "mean_time"; r "stddev_time"].
Proof. repeat split; reflexivity. Qed.

Lemma optionalFieldsFor_cases (V94 V95 : Z) (version : dbstats.PostgresVersion) :
  (V94 <= V95)%Z ->
  ((dbstats.Numeric version < V94)%Z ->
   dbstats.optionalFieldsFor V94 V95 version = dbstats.statementSQLDefaultOptionalFields)
  /\ ((V94 <= dbstats.Numeric version < V95)%Z ->
      dbstats.optionalFieldsFor V94 V95 version = dbstats.statementSQLpg94OptionalFields)
  /\ ((V95 <= dbstats.Numeric version)%Z ->
      dbstats.optionalFieldsFor V94 V95 version = dbstats.statementSQLpg95OptionalFields).
Proof.
  intros Hle. unfold dbstats.optionalFieldsFor.
  repeat split; intros H;
    destruct (Z.geb_spec (dbstats.Numeric version) V95);
    destruct (Z.geb_spec (dbstats.Numeric version) V94);
    try reflexivity; lia.
Qed.

(** The field list chosen in each range of versions, and what a row
    scanned through the select list with that field list holds. *)
Lemma optional_fields_scanned
  (V94 V95 : Z) (version : dbstats.PostgresVersion) :
  (V94 <= V95)%Z ->
  let optionalFields := dbstats.optionalFieldsFor V94 V95 version in
  ((dbstats.Numeric version < V94)%Z ->
   optionalFields = "NULL, NULL, NULL, NULL, NULL"
   /\ forall (r : pg.Row) (st : dbstats.Statement),
        dbstats.scan_selected optionalFields r = inr st ->
        dbstats.Queryid st = None /\ dbstats.MinTime st = None
        /\ dbstats.MaxTime st = None /\ dbstats.MeanTime st = None
        /\ dbstats.StddevTime st = None)
  /\ ((V94 <= dbstats.Numeric version < V95)%Z ->
      optionalFields = "queryid, NULL, NULL, NULL, NULL"
      /\ forall (r : pg.Row) (st : dbstats.Statement),
           dbstats.scan_selected optionalFields r = inr st ->
           dbstats.scanNullInt (r "queryid") = inr (dbstats.Queryid st)
           /\ dbstats.MinTime st = None /\ dbstats.MaxTime st = None
           /\ dbstats.MeanTime st = None /\ dbstats.StddevTime st = None)
  /\ ((V95 <= dbstats.Numeric version)%Z ->
      optionalFields = "queryid, min_time, max_time, mean_time, stddev_time"
      /\ forall (r : pg.Row) (st : dbstats.Statement),
           dbstats.scan_selected optionalFields r = inr st ->
           dbstats.scanNullInt (r "queryid") = inr (dbstats.Queryid st)
           /\ dbstats.scanNullFloat (r "min_time") = inr (dbstats.MinTime st)
           /\ dbstats.scanNullFloat (r "max_time") = inr (dbstats.MaxTime st)
           /\ dbstats.scanNullFloat (r "mean_time") = inr (dbstats.MeanTime st)
           /\ dbstats.scanNullFloat (r "stddev_time") = inr (dbstats.StddevTime st)).
Proof.
  intros Hle optionalFields.
  destruct (optionalFieldsFor_cases V94 V95 version Hle) as (Hdef & H94 & H95).
  split; [|split]; intros H; subst optionalFields;
    [rewrite (Hdef H) | rewrite (H94 H) | rewrite (H95 H)];
    (split; [reflexivity|]); intros r st Hscan;
    apply Scan_optional in Hscan
      as (c18 & c19 & c20 & c21 & c22 & Hcols & H18 & H19 & H20 & H21 & H22);
    destruct (optional_columns r) as (Cdef & C94 & C95).
  - rewrite Cdef in Hcols. injection Hcols as <- <- <- <- <-.
    cbn in H18, H19, H20, H21, H22. repeat split; congruence.
  - rewrite C94 in Hcols. injection Hcols as <- <- <- <- <-.
    cbn in H19, H20, H21, H22. repeat split; congruence.
  - rewrite C95 in Hcols. injection Hcols as <- <- <- <- <-.
    repeat split; assumption.
Qed.

Lemma eqb_append_l (m a b : string) : String.eqb (m ++ a) (m ++ b) = String.eqb a b.
Proof.
  induction m as [|c m IH]; [reflexivity|].
  cbn [String.append String.eqb]. now rewrite Ascii.eqb_refl.
Qed.

(** The reference server answers by meaning, whatever the marker, the
    catalog and the rows. *)
Lemma reference_server_answers_by_meaning (marker : string) (helper : bool)
  (cat : pg.Catalog) (source : list pg.Row) :
  answers_by_meaning marker (reference_server marker helper cat source).
Proof.
  intros opt src w stmt rows Hopt Hsrc Hprep Hquery.
  unfold reference_server in Hprep, Hquery.
  cbn [sql.db_Prepare sql.stmt_Query fst snd] in Hprep, Hquery.
  unfold optionalFieldSets in Hopt, Hprep. unfold sourceTables in Hsrc.
  cbn [In List.map index_of] in Hopt, Hsrc, Hprep.
  destruct helper;
    destruct Hopt as [<-|[<-|[<-|[]]]]; destruct Hsrc as [<-|[<-|[]]];
    rewrite !eqb_append_l, ?String.eqb_refl in Hprep;
    vm_compute in Hprep; try discriminate Hprep; injection Hprep as <-;
    cbn [nth_error optionalFieldSets] in Hquery;
    match type of Hquery with
    | context [dbstats.acquired ?f ?rx cat source] =>
        destruct (dbstats.acquired f rx cat source) as [next|] eqn:E;
        [|discriminate Hquery]
    end;
    injection Hquery as <-; exists cat, source; exact E.
Qed.

(** A non-empty list returned by [GetStatements] is the list of rows
    handed out by the statement prepared from its text. *)
Lemma returned_statements_were_delivered
  (marker : string) (V94 V95 : Z) (W : Type) (db : sql.DB W dbstats.Statement)
  (version : dbstats.PostgresVersion) (w : W)
  (statements : list dbstats.Statement) (err : option sql.error) :
  let helper := sql.result (dbstats.statementStatsHelperExists marker db) w in
  let sqlText :=
    marker ++ statementQuery (dbstats.optionalFieldsFor V94 V95 version)
                (dbstats.sourceTableFor helper) (dbstats.queryMarkerRegex marker) in
  sql.result (dbstats.GetStatements marker V94 V95 db version) w
  = sql.Returned (statements, err) ->
  statements = []
  \/ exists (w' : W) (stmt : sql.Stmt) (rows : sql.Rows dbstats.Statement),
       fst (sql.db_Prepare db sqlText w') = inr stmt
       /\ fst (sql.stmt_Query db stmt (snd (sql.db_Prepare db sqlText w'))) = inr rows
       /\ sql.rows_next rows = List.map inr statements.
Proof.
  cbv zeta. rewrite <- Sprintf_statementSQL. run_db. repeat answer.
  all: intros H; try discriminate H.
  all: try (injection H as <- _; now left).
  all: injection H as H; destruct err as [e'|];
    [left; now apply scanRows_error in H|].
  all: apply scanRows_complete in H as (delivered & Hnext & ->); right.
  all: match goal with
       | Hp : sql.db_Prepare ?d ?q ?w' = (inr ?s, ?w1),
         Hq : sql.stmt_Query ?d ?s ?w1 = (inr ?r, _) |- _ =>
           exists w', s, r; rewrite Hp; cbn [fst snd]; rewrite Hq
       end.
  all: now repeat split.
Qed.

(** C3.  With the 9.4 threshold not above the 9.5 threshold, the text
    [GetStatements] prepares selects five NULLs when the version is below
    9.4, [queryid] and four NULLs from 9.4 and below 9.5, [queryid] and
    the four timing columns from 9.5 on.  On a server that answers the
    query by its meaning, every Statement [GetStatements] returns is a
    source row scanned through that select list: below 9.4 it has no
    Queryid and no timing statistics, from 9.4 and below 9.5 it has the
    row's queryid and no timing statistics, from 9.5 on it has the row's
    queryid and timing statistics. *)
Theorem optional_fields_follow_version
  (marker : string) (V94 V95 : Z) (W : Type) (db : sql.DB W dbstats.Statement)
  (version : dbstats.PostgresVersion) (w : W) :
  (V94 <= V95)%Z ->
  let helper := sql.result (dbstats.statementStatsHelperExists marker db) w in
  let run := dbstats.GetStatements marker V94 V95 db version in
  let optionalFields := dbstats.optionalFieldsFor V94 V95 version in
  let sqlText :=
    marker ++ statementQuery optionalFields (dbstats.sourceTableFor helper)
                (dbstats.queryMarkerRegex marker) in
  (prepared (sql.trace run w) = [sqlText] \/ prepared (sql.trace run w) = [sqlText; sqlText])
  /\ ((dbstats.Numeric version < V94)%Z ->
      optionalFields = "NULL, NULL, NULL, NULL, NULL")
  /\ ((V94 <= dbstats.Numeric version < V95)%Z ->
      optionalFields = "queryid, NULL, NULL, NULL, NULL")
  /\ ((V95 <= dbstats.Numeric version)%Z ->
      optionalFields = "queryid, min_time, max_time, mean_time, stddev_time")
  /\ (answers_by_meaning marker db ->
      forall (statements : list dbstats.Statement) (err : option sql.error)
        (st : dbstats.Statement),
        sql.result run w = sql.Returned (statements, err) ->
        In st statements ->
        exists r : pg.Row,
          dbstats.scan_selected optionalFields r = inr st
          /\ ((dbstats.Numeric version < V94)%Z ->
              dbstats.Queryid st = None /\ dbstats.MinTime st = None
              /\ dbstats.MaxTime st = None /\ dbstats.MeanTime st = None
              /\ dbstats.StddevTime st = None)
          /\ ((V94 <= dbstats.Numeric version < V95)%Z ->
              dbstats.scanNullInt (r "queryid") = inr (dbstats.Queryid st)
              /\ dbstats.MinTime st = None /\ dbstats.MaxTime st = None
              /\ dbstats.MeanTime st = None /\ dbstats.StddevTime st = None)
          /\ ((V95 <= dbstats.Numeric version)%Z ->
              dbstats.scanNullInt (r "queryid") = inr (dbstats.Queryid st)
              /\ dbstats.scanNullFloat (r "min_time") = inr (dbstats.MinTime st)
              /\ dbstats.scanNullFloat (r "max_time") = inr (dbstats.MaxTime st)
              /\ dbstats.scanNullFloat (r "mean_time") = inr (dbstats.MeanTime st)
              /\ dbstats.scanNullFloat (r "stddev_time") = inr (dbstats.StddevTime st))).
Proof.
  intros Hle helper run optionalFields sqlText.
  destruct (optional_fields_scanned V94 V95 version Hle) as (Hdef & H94 & H95).
  cbv zeta in Hdef, H94, H95. fold optionalFields in Hdef, H94, H95.
  split; [|split; [|split; [|split]]].
  - pose proof (prepared_once_or_twice marker V94 V95 W db version w) as H.
    cbv zeta in H. now rewrite Sprintf_statementSQL in H.
  - intros H. exact (proj1 (Hdef H)).
  - intros H. exact (proj1 (H94 H)).
  - intros H. exact (proj1 (H95 H)).
  - intros Hdb statements err st Hres Hin.
    apply returned_statements_were_delivered in Hres
      as [->|(w' & stmt & rows & Hprep & Hquery & Hnext)]; [destruct Hin|].
    cbv zeta in Hprep, Hquery.
    assert (Hopt : In optionalFields optionalFieldSets).
    { subst optionalFields. unfold dbstats.optionalFieldsFor, optionalFieldSets.
      destruct (_ >=? V95)%Z; [|destruct (_ >=? V94)%Z]; cbn; auto. }
    assert (Hsrc : In (dbstats.sourceTableFor helper) sourceTables)
      by (destruct helper; cbn; auto).
    destruct (Hdb _ _ _ _ _ Hopt Hsrc Hprep Hquery) as (cat & source & Hacq).
    apply acquired_rows in Hacq. rewrite Hnext in Hacq.
    assert (Hst : In (inr st : sql.error + dbstats.Statement)
                    (List.map inr statements)) by now apply List.in_map.
    rewrite Hacq in Hst. apply List.in_map_iff in Hst as (r & Hscan & _).
    exists r. split; [exact Hscan|].
    split; [|split]; intros H.
    + exact (proj2 (Hdef H) r st Hscan).
    + exact (proj2 (H94 H) r st Hscan).
    + exact (proj2 (H95 H) r st Hscan).
Qed.

Lemma optional_fields_follow_version_witness :
  let db := reference_server collector_marker false server_catalog server_rows in
  (90400 <= 90500)%Z
  /\ answers_by_meaning collector_marker db
  /\ sql.result (dbstats.GetStatements collector_marker 90400 90500 db pg93) tt
     = sql.Returned ([stat_statement_93], None)
  /\ (dbstats.Numeric pg93 < 90400)%Z
  /\ length (prepared (sql.trace
               (dbstats.GetStatements collector_marker 90400 90500 db pg93) tt)) = 1%nat
  /\ exists r : pg.Row,
       dbstats.scan_selected (dbstats.optionalFieldsFor 90400 90500 pg93) r
       = inr stat_statement_93
       /\ dbstats.Queryid stat_statement_93 = None
       /\ dbstats.StddevTime stat_statement_93 = None.
Proof.
  cbv zeta.
  assert (Hle : (90400 <= 90500)%Z) by discriminate.
  assert (Hdb : answers_by_meaning collector_marker
                  (reference_server collector_marker false server_catalog server_rows))
    by apply reference_server_answers_by_meaning.
  assert (Hres : sql.result (dbstats.GetStatements collector_marker 90400 90500
                               (reference_server collector_marker false
                                  server_catalog server_rows) pg93) tt
                 = sql.Returned ([stat_statement_93], None))
    by (vm_compute; reflexivity).
  split; [exact Hle|]. split; [exact Hdb|]. split; [exact Hres|].
  split; [reflexivity|]. split; [vm_compute; reflexivity|].
  destruct (proj2 (proj2 (proj2 (proj2
              (optional_fields_follow_version collector_marker 90400 90500 unit
                 (reference_server collector_marker false server_catalog server_rows)
                 pg93 tt Hle)))) Hdb [stat_statement_93] None stat_statement_93 Hres
              (or_introl eq_refl))
    as (r & Hscan & Hbelow & _).
  exists r. split; [exact Hscan|].
  destruct (Hbelow eq_refl) as (Hq & _ & _ & _ & Hs).
  split; [exact Hq | exact Hs].
Defined.

Example scan_selected_by_version :
  field_of dbstats.Queryid
    (dbstats.scan_selected (dbstats.optionalFieldsFor 90400 90500 pg93) stat_row)
  = Some None
  /\ field_of dbstats.Queryid
       (dbstats.scan_selected
          (dbstats.optionalFieldsFor 90400 90500 {| dbstats.Numeric := 90407 |}) stat_row)
     = Some (Some 7%Z)
  /\ field_of dbstats.MeanTime
       (dbstats.scan_selected
          (dbstats.optionalFieldsFor 90400 90500 {| dbstats.Numeric := 90407 |}) stat_row)
     = Some None
  /\ field_of dbstats.MeanTime
       (dbstats.scan_selected (dbstats.optionalFieldsFor 90400 90500 pg96) stat_row)
     = Some (Some (S754_zero false)).
Proof. repeat split; vm_compute; reflexivity. Qed.

(** ** Persisted state *)

(** C8.  A container whose format version is not
    [StateOnDiskFormatVersion] gives no previous state for any API key,
    whatever it holds. *)
Theorem version_mismatch_discards_state (container : state.StateOnDisk) :
  state.FormatVersion container <> state.StateOnDiskFormatVersion ->
  forall apiKey : string, state.Load container apiKey = None.
Proof.
  intros H apiKey. unfold state.Load.
  destruct (N.eqb_spec (state.FormatVersion container) state.StateOnDiskFormatVersion);
    [contradiction | reflexivity].
Qed.

Lemma version_mismatch_discards_state_witness :
  state.FormatVersion stale_container <> state.StateOnDiskFormatVersion
  /\ state.PrevStateByAPIKey stale_container !! "key-1" = Some (snapshot 1 100 50)
  /\ state.Load stale_container "key-1" = None.
Proof.
  split; [discriminate|]. split; [reflexivity|].
  apply (version_mismatch_discards_state stale_container). discriminate.
Defined.

Example matching_version_is_read :
  state.StateOnDiskFormatVersion = 1%N
  /\ state.Load {| state.FormatVersion := 1;
                   state.PrevStateByAPIKey := {[ "key-1" := snapshot 1 100 50 ]} |} "key-1"
     = Some (snapshot 1 100 50).
Proof. split; reflexivity. Qed.

(** ** The diff *)

Lemma decreased_true (prev cur : gmap string Z) :
  state.decreased prev cur = true <->
  exists (field : string) (p c : Z),
    prev !! field = Some p /\ cur !! field = Some c /\ (c < p)%Z.
Proof.
  unfold state.decreased. rewrite List.existsb_exists. split.
  - intros ([field c] & Hin & H). cbn in H.
    apply list_elem_of_In, elem_of_map_to_list in Hin.
    destruct (prev !! field) as [p|] eqn:Hp; [|discriminate H].
    exists field, p, c. repeat split; try assumption. now apply Z.ltb_lt.
  - intros (field & p & c & Hp & Hc & Hlt). exists (field, c). split.
    + now apply list_elem_of_In, elem_of_map_to_list.
    + cbn. rewrite Hp. now apply Z.ltb_lt.
Qed.

Lemma diffEntity_nonneg (prev : option (gmap string Z)) (cur : gmap string Z) :
  state.nonneg cur -> state.nonneg (state.delta (state.diffEntity prev cur)).
Proof.
  intros Hcur field v. unfold state.diffEntity.
  destruct prev as [p|]; [destruct (state.decreased p cur) eqn:Hdec|]; cbn.
  - apply Hcur.
  - rewrite lookup_intersection_with.
    destruct (cur !! field) as [c|] eqn:Hc; [|discriminate].
    destruct (p !! field) as [x|] eqn:Hx; [|discriminate].
    cbn. intros [= <-].
    destruct (Z.lt_ge_cases c x) as [Hlt|Hge]; [|lia].
    assert (state.decreased p cur = true) as Habs
      by (apply decreased_true; eauto 6).
    congruence.
  - rewrite lookup_fmap. destruct (cur !! field); cbn; [|discriminate].
    intros [= <-]. lia.
Qed.

Lemma diffedSet_lookup (before : option state.PersistedState)
  (cur : state.PersistedState) (cat : state.Category) (key : state.EntityKey) :
  state.diffedSet cat (state.DiffEngine before cur) !! key
  = (fun c => state.diffEntity
                (match before with
                 | Some p => state.counterSet cat p
                 | None => ∅
                 end !! key) c)
    <$> state.counterSet cat cur !! key.
Proof.
  destruct cat;
    cbn [state.diffedSet state.DiffEngine state.counterSet state.DiffedStatementStats
         state.DiffedRelationStats state.DiffedIndexStats state.DiffedFunctionStats];
    unfold state.diffCategory; rewrite map_lookup_imap;
    destruct (_ !! key); reflexivity.
Qed.

(** C5.  For a well-formed current snapshot, whatever the previous one:
    a matched entity one of whose counters decreased gets its current
    values as deltas, for every field it has, and is marked reset (so do
    the system and the collector counters); and no delta of any entity of
    any category, nor of the system and collector counters, is
    negative. *)
Theorem reset_reports_current_and_no_delta_is_negative
  (cur : state.PersistedState) :
  state.wellFormed cur ->
  (forall (prev : state.PersistedState) (cat : state.Category)
     (key : state.EntityKey) (p c : gmap string Z),
     state.counterSet cat prev !! key = Some p ->
     state.counterSet cat cur !! key = Some c ->
     (exists (field : string) (x y : Z),
        p !! field = Some x /\ c !! field = Some y /\ (y < x)%Z) ->
     state.diffedSet cat (state.DiffEngine (Some prev) cur) !! key
     = Some {| state.delta := c; state.reset := true |})
  /\ (forall prev : state.PersistedState,
        ((exists (field : string) (x y : Z),
            state.System prev !! field = Some x
            /\ state.System cur !! field = Some y /\ (y < x)%Z) ->
         state.DiffedSystemStats (state.DiffEngine (Some prev) cur)
         = {| state.delta := state.System cur; state.reset := true |})
        /\ ((exists (field : string) (x y : Z),
               state.CollectorStats prev !! field = Some x
               /\ state.CollectorStats cur !! field = Some y /\ (y < x)%Z) ->
            state.DiffedCollectorStats (state.DiffEngine (Some prev) cur)
            = {| state.delta := state.CollectorStats cur; state.reset := true |}))
  /\ (forall (before : option state.PersistedState) (cat : state.Category)
        (key : state.EntityKey) (d : state.Diffed) (field : string) (v : Z),
        state.diffedSet cat (state.DiffEngine before cur) !! key = Some d ->
        state.delta d !! field = Some v -> (0 <= v)%Z)
  /\ (forall (before : option state.PersistedState) (field : string) (v : Z),
        (state.delta (state.DiffedSystemStats (state.DiffEngine before cur)) !! field
         = Some v -> (0 <= v)%Z)
        /\ (state.delta (state.DiffedCollectorStats (state.DiffEngine before cur)) !! field
            = Some v -> (0 <= v)%Z)).
Proof.
  intros (Hcats & Hsys & Hcol). split; [|split; [|split]].
  - intros prev cat key p c Hp Hc Hdec.
    rewrite diffedSet_lookup, Hc, Hp. cbn. unfold state.diffEntity.
    apply decreased_true in Hdec. now rewrite Hdec.
  - intros prev. split; intros Hdec; apply decreased_true in Hdec;
      cbn; unfold state.diffEntity; now rewrite Hdec.
  - intros before cat key d field v Hd Hv.
    rewrite diffedSet_lookup in Hd.
    destruct (state.counterSet cat cur !! key) as [c|] eqn:Hc; [|discriminate Hd].
    cbn in Hd. injection Hd as <-.
    eapply diffEntity_nonneg; [|exact Hv]. exact (Hcats cat key c Hc).
  - intros before field v. split; intros Hv; cbn in Hv;
      (eapply diffEntity_nonneg; [|exact Hv]); assumption.
Qed.

Lemma snapshot_wellFormed : state.wellFormed (snapshot 2 40 60).
Proof.
  split; [intros []|split]; unfold state.nonneg;
    match goal with |- ?P => apply (@bool_decide_unpack P _) end;
    vm_compute; exact I.
Defined.

Lemma reset_reports_current_and_no_delta_is_negative_witness :
  state.wellFormed (snapshot 2 40 60)
  /\ state.diffedSet state.Statements
       (state.DiffEngine (Some (snapshot 1 100 50)) (snapshot 2 40 60)) !! statement_key
     = Some {| state.delta := {[ "calls" := 40%Z; "rows" := 60%Z ]};
               state.reset := true |}.
Proof.
  split; [exact snapshot_wellFormed|].
  apply (proj1 (reset_reports_current_and_no_delta_is_negative
                  (snapshot 2 40 60) snapshot_wellFormed)
           (snapshot 1 100 50) state.Statements statement_key
           {[ "calls" := 100%Z; "rows" := 50%Z ]}).
  - reflexivity.
  - reflexivity.
  - exists "calls", 100%Z, 40%Z. repeat split; reflexivity.
Defined.

Example diff_scenarios :
  state.diffEntity (Some {[ "calls" := 100%Z; "blocks_hit" := 50%Z ]})
    {[ "calls" := 100%Z; "blocks_hit" := 50%Z ]}
  = {| state.delta := {[ "calls" := 0%Z; "blocks_hit" := 0%Z ]}; state.reset := false |}
  /\ state.diffEntity (Some {[ "calls" := 100%Z ]}) {[ "calls" := 40%Z ]}
     = {| state.delta := {[ "calls" := 40%Z ]}; state.reset := true |}
  /\ state.diffEntity None {[ "calls" := 5%Z ]}
     = {| state.delta := {[ "calls" := 0%Z ]}; state.reset := false |}
  /\ state.diffEntity (Some {[ "calls" := 5%Z ]}) {[ "calls" := 9%Z; "mean_time" := 3%Z ]}
     = {| state.delta := {[ "calls" := 4%Z ]}; state.reset := false |}.
Proof. repeat split; vm_compute; reflexivity. Qed.

(** * Further properties of the code *)

(** ** Repair and retry, continued *)

(** X1.  [GetStatements] executes CREATE EXTENSION at most once, and it
    does so exactly when no helper is in use and the first [db.Prepare]
    failed with the pq code 42P01. *)
Theorem create_extension_only_for_missing_view
  (marker : string) (V94 V95 : Z) (W : Type) (db : sql.DB W dbstats.Statement)
  (version : dbstats.PostgresVersion) (w : W) :
  let probe := sql.db_QueryRowScanBool db (marker ++ dbstats.statementStatsHelperSQL) w in
  let helper := sql.result (dbstats.statementStatsHelperExists marker db) w in
  let sqlText :=
    marker ++ statementQuery (dbstats.optionalFieldsFor V94 V95 version)
                (dbstats.sourceTableFor helper) (dbstats.queryMarkerRegex marker) in
  let first := sql.db_Prepare db sqlText (snd probe) in
  let t := sql.trace (dbstats.GetStatements marker V94 V95 db version) w in
  (executed t = [] \/ executed t = [dbstats.createExtensionSQL marker])
  /\ (executed t = [dbstats.createExtensionSQL marker] <->
      helper = false /\ exists Message, fst first = inl (sql.PqError "42P01" Message)).
Proof.
  cbv zeta. rewrite <- Sprintf_statementSQL. run_db.
  destruct (sql.db_QueryRowScanBool _ _ w) as [[?|[|]] w0]; cbn [fst snd].
  all: destruct (sql.db_Prepare _ _ w0) as [[[Code Message|?]|?] w1]; cbn [fst snd].
  all: cbn [dbstats.sourceTableFor String.eqb Ascii.eqb Bool.eqb fst snd].
  all: try destruct (String.eqb_spec Code "42P01") as [->|Hne].
  all: repeat answer.
  all: cbn [executed omap list_omap app].
  all: (split; [auto|]); split;
    [intros H; try discriminate H; eauto
    |intros [Hh (m & Hm)]; try discriminate Hh; try discriminate Hm;
     try reflexivity; injection Hm as Hc _; congruence].
Qed.

Lemma undefined_table_repaired_once_witness :
  let run := dbstats.GetStatements collector_marker 90400 90500
               (scripted extension_missing) pg96 in
  sql.result (dbstats.statementStatsHelperExists collector_marker
                (scripted extension_missing)) 0%nat = false
  /\ executed (sql.trace run 0%nat) = [dbstats.createExtensionSQL collector_marker]
  /\ length (prepared (sql.trace run 0%nat)) = 2%nat
  /\ sql.result run 0%nat = sql.Returned ([], None).
Proof.
  cbv zeta. split; [vm_compute; reflexivity|].
  pose proof (undefined_table_repaired_once collector_marker 90400 90500 nat
                (scripted extension_missing) pg96 0%nat
                "relation pg_stat_statements does not exist") as H.
  cbv zeta in H.
  specialize (H ltac:(vm_compute; reflexivity) ltac:(vm_compute; reflexivity)).
  destruct H as [Hexec Hrest].
  split; [exact Hexec|].
  vm_compute in Hrest. destruct Hrest as [_ Hres].
  split; [vm_compute; reflexivity | exact Hres].
Defined.

Lemma other_prepare_error_returned_witness :
  let run := dbstats.GetStatements collector_marker 90400 90500
               (scripted helper_query_fails) pg96 in
  sql.result (dbstats.statementStatsHelperExists collector_marker
                (scripted helper_query_fails)) 0%nat = true
  /\ sql.result run 0%nat = sql.Returned ([], Some undefined_table)
  /\ executed (sql.trace run 0%nat) = [].
Proof.
  cbv zeta. split; [vm_compute; reflexivity|].
  pose proof (other_prepare_error_returned collector_marker 90400 90500 nat
                (scripted helper_query_fails) pg96 0%nat undefined_table) as H.
  cbv zeta in H.
  specialize (H ltac:(vm_compute; reflexivity)
                ltac:(left; vm_compute; reflexivity)).
  destruct H as (Hres & Hexec & _).
  split; [exact Hres | exact Hexec].
Defined.

Lemma error_comes_with_nil_witness :
  sql.result (dbstats.GetStatements collector_marker 90400 90500
                (scripted second_row_unscannable) pg96) 0%nat
  = sql.Returned ([], Some (sql.OtherError "sql: Scan error on column index 2"))
  /\ ([] : list dbstats.Statement) = [].
Proof.
  split; [vm_compute; reflexivity|].
  apply (error_comes_with_nil collector_marker 90400 90500 nat
           (scripted second_row_unscannable) pg96 0%nat []
           (sql.OtherError "sql: Scan error on column index 2")).
  vm_compute; reflexivity.
Defined.


(** ** The row loop, continued *)

Lemma scanRows_all (l acc : list dbstats.Statement) :
  dbstats.scanRows (List.map inr l) acc = ((acc ++ l)%list, None).
Proof.
  revert acc. induction l as [|row l IH]; intros acc; cbn.
  - now rewrite app_nil_r.
  - rewrite IH. now rewrite <- app_assoc.
Qed.

Lemma scanRows_first_error (l acc : list dbstats.Statement) (e : sql.error)
  (rest : list (sql.error + dbstats.Statement)) :
  dbstats.scanRows (List.map inr l ++ inl e :: rest)%list acc = ([], Some e).
Proof.
  revert acc. induction l as [|row l IH]; intros acc; cbn; [reflexivity | apply IH].
Qed.

(** X5.  Once the first [db.Prepare] and [stmt.Query] have succeeded: if
    every row scans, [GetStatements] returns the rows in the order they
    were delivered, with a nil error; if a row fails to scan, it returns
    nil with the error of the first such row, and the rows after it play
    no part. *)
Theorem rows_in_order_or_first_scan_error
  (marker : string) (V94 V95 : Z) (W : Type) (db : sql.DB W dbstats.Statement)
  (version : dbstats.PostgresVersion) (w : W) (stmt : sql.Stmt)
  (rows : sql.Rows dbstats.Statement) :
  let probe := sql.db_QueryRowScanBool db (marker ++ dbstats.statementStatsHelperSQL) w in
  let helper := sql.result (dbstats.statementStatsHelperExists marker db) w in
  let sqlText :=
    marker ++ statementQuery (dbstats.optionalFieldsFor V94 V95 version)
                (dbstats.sourceTableFor helper) (dbstats.queryMarkerRegex marker) in
  let first := sql.db_Prepare db sqlText (snd probe) in
  let res := sql.result (dbstats.GetStatements marker V94 V95 db version) w in
  fst first = inr stmt ->
  fst (sql.stmt_Query db stmt (snd first)) = inr rows ->
  (forall l : list dbstats.Statement,
     sql.rows_next rows = List.map inr l -> res = sql.Returned (l, None))
  /\ (forall (l : list dbstats.Statement) (e : sql.error)
        (rest : list (sql.error + dbstats.Statement)),
        sql.rows_next rows = (List.map inr l ++ inl e :: rest)%list ->
        res = sql.Returned ([], Some e)).
Proof.
  cbv zeta. rewrite <- Sprintf_statementSQL. run_db.
  destruct (sql.db_QueryRowScanBool _ _ w) as [[?|[|]] w0]; cbn [fst snd].
  all: destruct (sql.db_Prepare _ _ w0) as [[?|?] w1]; cbn [fst snd];
    intros Hp; try discriminate Hp; injection Hp as ->.
  all: destruct (sql.stmt_Query _ _ w1) as [[?|?] w2]; cbn [fst snd];
    intros Hq; try discriminate Hq; injection Hq as ->.
  all: split; [intros l -> | intros l e' rest ->].
  all: now rewrite ?scanRows_all, ?scanRows_first_error.
Qed.

Lemma rows_in_order_or_first_scan_error_witness :
  fst (sql.db_Prepare (scripted two_rows)
         (collector_marker
          ++ statementQuery (dbstats.optionalFieldsFor 90400 90500 pg96)
               "pg_stat_statements" (dbstats.queryMarkerRegex collector_marker)) 0%nat)
  = inr 1%nat
  /\ sql.result (dbstats.GetStatements collector_marker 90400 90500
                   (scripted two_rows) pg96) 0%nat
     = sql.Returned ([sample_statement 10 3 "SELECT 1";
                      sample_statement 11 5 "SELECT 2"], None).
Proof.
  split; [vm_compute; reflexivity|].
  pose proof (rows_in_order_or_first_scan_error collector_marker 90400 90500 nat
                (scripted two_rows) pg96 0%nat 1%nat
                {| sql.rows_next :=
                     [inr (sample_statement 10 3 "SELECT 1");
                      inr (sample_statement 11 5 "SELECT 2")];
                   sql.rows_Err := None |}) as H.
  cbv zeta in H.
  specialize (H ltac:(vm_compute; reflexivity) ltac:(vm_compute; reflexivity)).
  apply (proj1 H). reflexivity.
Defined.

(** X6.  On the prepared statement [GetStatements] calls nothing, or
    Query then Close, or Query, then Close of the rows, then Close of the
    statement; and it returns a nil error only in the last case, with
    rows and statement closed. *)
Theorem statement_and_rows_are_closed
  (marker : string) (V94 V95 : Z) (W : Type) (db : sql.DB W dbstats.Statement)
  (version : dbstats.PostgresVersion) (w : W) :
  let t := sql.trace (dbstats.GetStatements marker V94 V95 db version) w in
  let res := sql.result (dbstats.GetStatements marker V94 V95 db version) w in
  (lifecycle t = []
   \/ lifecycle t = [sql.StmtQuery; sql.StmtClose]
   \/ lifecycle t = [sql.StmtQuery; sql.RowsClose; sql.StmtClose])
  /\ (forall statements : list dbstats.Statement,
        res = sql.Returned (statements, None) ->
        lifecycle t = [sql.StmtQuery; sql.RowsClose; sql.StmtClose]).
Proof.
  run_db. repeat answer.
  all: cbn [lifecycle List.filter app].
  all: split; [auto|]; intros statements H; try discriminate H; reflexivity.
Qed.

Lemma statement_and_rows_are_closed_witness :
  let run := dbstats.GetStatements collector_marker 90400 90500 (scripted two_rows) pg96 in
  sql.result run 0%nat
  = sql.Returned ([sample_statement 10 3 "SELECT 1";
                   sample_statement 11 5 "SELECT 2"], None)
  /\ lifecycle (sql.trace run 0%nat) = [sql.StmtQuery; sql.RowsClose; sql.StmtClose].
Proof.
  cbv zeta.
  assert (H : sql.result (dbstats.GetStatements collector_marker 90400 90500
                            (scripted two_rows) pg96) 0%nat
              = sql.Returned ([sample_statement 10 3 "SELECT 1";
                               sample_statement 11 5 "SELECT 2"], None))
    by (vm_compute; reflexivity).
  split; [exact H|].
  exact (proj2 (statement_and_rows_are_closed collector_marker 90400 90500 nat
                  (scripted two_rows) pg96 0%nat) _ H).
Defined.

(** ** Probes, continued *)

(** X7.  A probe returns true exactly when its query succeeded and the
    value scanned is true. *)
Theorem probes_true_only_on_true_answer
  (marker : string) (W R : Type) (db : sql.DB W R) (w : W) (statsHelper : string)
  (dbmarker : string) (sdb : sql.DB W dbstats.Statement) :
  (sql.result (postgres.connectedAsSuperUser marker db) w = true <->
   fst (sql.db_QueryRowScanBool db (marker ++ postgres.connectedAsSuperUserSQL) w)
   = inr true)
  /\ (sql.result (postgres.connectedAsMonitoringRole marker db) w = true <->
      fst (sql.db_QueryRowScanBool db (marker ++ postgres.connectedAsMonitoringRoleSQL) w)
      = inr true)
  /\ (sql.result (postgres.statsHelperExists marker db statsHelper) w = true <->
      fst (sql.db_QueryRowScanBool db
             (marker ++ fmt.Sprintf postgres.statsHelperSQL [statsHelper]) w)
      = inr true)
  /\ (sql.result (dbstats.statementStatsHelperExists dbmarker sdb) w = true <->
      fst (sql.db_QueryRowScanBool sdb (dbmarker ++ dbstats.statementStatsHelperSQL) w)
      = inr true).
Proof.
  split; [|split; [|split]]; run_db;
    match goal with
    | |- context [sql.db_QueryRowScanBool ?d ?q ?w] =>
        destruct (sql.db_QueryRowScanBool d q w) as [[?|[|]] ?]
    end; cbn [fst snd]; split; intros H;
    first [discriminate H | reflexivity].
Qed.

(** X8.  [statsHelperExists] asked for [get_stat_statements] sends the
    same text as [statementStatsHelperExists] and ends with the same
    result, state and trace. *)
Theorem statsHelperExists_get_stat_statements
  (marker : string) (W : Type) (db : sql.DB W dbstats.Statement) (w : W) :
  fmt.Sprintf postgres.statsHelperSQL ["get_stat_statements"]
  = dbstats.statementStatsHelperSQL
  /\ sql.run (postgres.statsHelperExists marker db "get_stat_statements") w
     = sql.run (dbstats.statementStatsHelperExists marker db) w.
Proof.
  assert (H : fmt.Sprintf postgres.statsHelperSQL ["get_stat_statements"]
              = dbstats.statementStatsHelperSQL) by (vm_compute; reflexivity).
  split; [exact H|].
  unfold postgres.statsHelperExists, dbstats.statementStatsHelperExists.
  cbv zeta. now rewrite H.
Qed.


(** ** The marker pattern, continued *)

Lemma HasPrefixFold_app (p x : string) : HasPrefixFold (p ++ x) p = true.
Proof.
  induction p as [|a p IH]; [reflexivity|].
  cbn [String.append HasPrefixFold]. unfold ci_eqb.
  now rewrite Ascii.eqb_refl, IH.
Qed.

Lemma TrimRight_prefix (s cutset : string) :
  exists tail : string, s = strings.TrimRight s cutset ++ tail.
Proof.
  induction s as [|c s [tail IH]]; [now exists ""|].
  cbn [strings.TrimRight].
  destruct (strings.TrimRight s cutset) as [|k kept].
  - destruct (mem_ascii c cutset).
    + now exists (String c s).
    + exists s. reflexivity.
  - exists tail. cbn [String.append] in *. now f_equal.
Qed.

Lemma own_text_matches_pattern (marker rest : string) :
  forallb_string literal_in_pattern (strings.Trim marker " ") = true ->
  strings.TrimLeft marker " " = marker ->
  pg.regex_imatch (marker ++ rest) ("^" ++ dbstats.queryMarkerRegex marker) = Some true.
Proof.
  intros Hlit Hleft. rewrite (regex_of_marker _ _ Hlit). f_equal.
  unfold strings.Trim. rewrite Hleft.
  destruct (TrimRight_prefix marker " ") as [tail Htail].
  rewrite Htail at 1. rewrite append_assoc'. apply HasPrefixFold_app.
Qed.

(** X9.  When the marker does not begin with a blank and, trimmed, holds
    only bytes the pattern matches literally, every SQL text that
    [GetStatements] itself sends (probe, acquisition query, CREATE
    EXTENSION) is matched by the pattern it builds, so the filter of the
    acquisition query drops the collector's own statements. *)
Theorem own_queries_match_marker_pattern
  (marker : string) (V94 V95 : Z) (W : Type) (db : sql.DB W dbstats.Statement)
  (version : dbstats.PostgresVersion) (w : W) :
  forallb_string literal_in_pattern (strings.Trim marker " ") = true ->
  strings.TrimLeft marker " " = marker ->
  Forall (fun q => pg.regex_imatch q ("^" ++ dbstats.queryMarkerRegex marker) = Some true)
    (sql.sent (sql.trace (dbstats.GetStatements marker V94 V95 db version) w)).
Proof.
  intros Hlit Hleft. run_db. repeat answer.
  all: cbn [sql.sent omap list_omap app sql.sql_text].
  all: repeat constructor; now apply own_text_matches_pattern.
Qed.

Lemma own_queries_match_marker_pattern_witness :
  forallb_string literal_in_pattern (strings.Trim collector_marker " ") = true
  /\ strings.TrimLeft collector_marker " " = collector_marker
  /\ Forall (fun q => pg.regex_imatch q
                        ("^" ++ dbstats.queryMarkerRegex collector_marker) = Some true)
       (sql.sent (sql.trace (dbstats.GetStatements collector_marker 90400 90500
                               (scripted extension_missing) pg96) 0%nat)).
Proof.
  split; [vm_compute; reflexivity|]. split; [vm_compute; reflexivity|].
  apply (own_queries_match_marker_pattern collector_marker 90400 90500 nat
           (scripted extension_missing) pg96 0%nat);
    vm_compute; reflexivity.
Defined.

(** A marker that begins with a blank is sent with the blank, which the
    trimmed pattern does not match. *)
Example marker_with_leading_blank_not_matched :
  pg.regex_imatch (" /* agent */ " ++ "SELECT 1")
    ("^" ++ dbstats.queryMarkerRegex " /* agent */ ") = Some false.
Proof. vm_compute; reflexivity. Qed.

Lemma escape_head (s : string) (k : ascii) (rest : string) :
  escape s = String k rest -> Ascii.eqb k "*" || Ascii.eqb k "/" = false.
Proof.
  destruct s as [|c s]; [discriminate|].
  cbn [escape]. unfold escape_byte.
  destruct (Ascii.eqb c "*") eqn:Es; [intros [= <- _]; reflexivity|].
  destruct (Ascii.eqb c "/") eqn:El; [intros [= <- _]; reflexivity|].
  intros [= <- _]. now rewrite Es, El.
Qed.

Lemma unescape_escape (s : string) : unescape (escape s) = s.
Proof.
  induction s as [|c s IH]; [reflexivity|].
  cbn [escape]. unfold escape_byte.
  destruct (Ascii.eqb c "*") eqn:Es.
  { apply Ascii.eqb_eq in Es as ->. cbn. now rewrite IH. }
  destruct (Ascii.eqb c "/") eqn:El.
  { apply Ascii.eqb_eq in El as ->. cbn. now rewrite IH. }
  cbn [String.append unescape].
  destruct (Ascii.eqb c BACKSLASH); [|now rewrite IH].
  destruct (escape s) as [|k rest] eqn:E.
  - cbn in IH. now rewrite <- IH.
  - rewrite (escape_head s k rest E). now rewrite IH.
Qed.

(** X10.  The escaping of the marker loses nothing: dropping the
    backslashes in front of [*] and [/] gives back the trimmed marker, so
    two markers with the same pattern are equal once trimmed. *)
Theorem marker_pattern_determines_trimmed_marker :
  (forall marker : string,
     unescape (dbstats.queryMarkerRegex marker) = strings.Trim marker " ")
  /\ (forall m1 m2 : string,
        dbstats.queryMarkerRegex m1 = dbstats.queryMarkerRegex m2 ->
        strings.Trim m1 " " = strings.Trim m2 " ").
Proof.
  assert (H : forall marker : string,
             unescape (dbstats.queryMarkerRegex marker) = strings.Trim marker " ")
    by (intros marker; rewrite queryMarkerRegex_escape; apply unescape_escape).
  split; [exact H|].
  intros m1 m2 Heq. rewrite <- (H m1), <- (H m2). now rewrite Heq.
Qed.

Lemma marker_pattern_determines_trimmed_marker_witness :
  dbstats.queryMarkerRegex "/* a\*b */ " = dbstats.queryMarkerRegex "  /* a\*b */"
  /\ strings.Trim "/* a\*b */ " " " = strings.Trim "  /* a\*b */" " ".
Proof.
  split; [reflexivity|].
  apply (proj2 marker_pattern_determines_trimmed_marker). reflexivity.
Defined.

(** ** Columns and destinations *)

Lemma Scan_fixed (columns : list pg.value) (st : dbstats.Statement) :
  dbstats.Scan columns = inr st ->
  take 17 columns
  = [pg.VInt (dbstats.Userid st); pg.VText (dbstats.Query st);
     pg.VInt (dbstats.Calls st); pg.VFloat (dbstats.TotalTime st);
     pg.VInt (dbstats.Rows st); pg.VInt (dbstats.SharedBlksHit st);
     pg.VInt (dbstats.SharedBlksRead st); pg.VInt (dbstats.SharedBlksDirtied st);
     pg.VInt (dbstats.SharedBlksWritten st); pg.VInt (dbstats.LocalBlksHit st);
     pg.VInt (dbstats.LocalBlksRead st); pg.VInt (dbstats.LocalBlksDirtied st);
     pg.VInt (dbstats.LocalBlksWritten st); pg.VInt (dbstats.TempBlksRead st);
     pg.VInt (dbstats.TempBlksWritten st); pg.VFloat (dbstats.BlkReadTime st);
     pg.VFloat (dbstats.BlkWriteTime st)].
Proof.
  intros H.
  do 22 (destruct columns as [|? columns]; [discriminate H|]).
  destruct columns; [|discriminate H].
  unfold dbstats.Scan, dbstats.and_then in H.
  repeat match type of H with
         | context [match ?x with inl _ => _ | inr _ => _ end] =>
             destruct x eqn:?; [discriminate H|]
         end.
  injection H as <-.
  repeat match goal with
         | E : dbstats.scanInt ?v = inr _ |- _ =>
             destruct v; try discriminate E; injection E as ->
         | E : dbstats.scanFloat ?v = inr _ |- _ =>
             destruct v; try discriminate E; injection E as ->
         | E : dbstats.scanString ?v = inr _ |- _ =>
             destruct v; try discriminate E; injection E as ->
         end.
  reflexivity.
Qed.

Lemma fixed_columns (r : pg.Row) (V94 V95 : Z) (version : dbstats.PostgresVersion) :
  let columns :=
    List.map (dbstats.eval_column r)
      (dbstats.select_list (dbstats.optionalFieldsFor V94 V95 version)) in
  length columns = 22%nat
  /\ take 17 columns
     = [r "userid"; r "query"; r "calls"; r "total_time"; r "rows";
        r "shared_blks_hit"; r "shared_blks_read"; r "shared_blks_dirtied";
        r "shared_blks_written"; r "local_blks_hit"; r "local_blks_read";
        r "local_blks_dirtied"; r "local_blks_written"; r "temp_blks_read";
        r "temp_blks_written"; r "blk_read_time"; r "blk_write_time"].
Proof.
  unfold dbstats.optionalFieldsFor.
  destruct (_ >=? V95)%Z; [|destruct (_ >=? V94)%Z]; split; reflexivity.
Qed.

(** X11.  For every server version the select list has as many columns
    as [rows.Scan] has destinations, 22, and a Statement scanned from a
    row holds in each of its seventeen fixed fields the value of the
    column of the same name. *)
Theorem fields_hold_their_columns
  (V94 V95 : Z) (version : dbstats.PostgresVersion) :
  length (dbstats.select_list (dbstats.optionalFieldsFor V94 V95 version)) = 22%nat
  /\ forall (r : pg.Row) (st : dbstats.Statement),
       dbstats.scan_selected (dbstats.optionalFieldsFor V94 V95 version) r = inr st ->
       r "userid" = pg.VInt (dbstats.Userid st)
       /\ r "query" = pg.VText (dbstats.Query st)
       /\ r "calls" = pg.VInt (dbstats.Calls st)
       /\ r "total_time" = pg.VFloat (dbstats.TotalTime st)
       /\ r "rows" = pg.VInt (dbstats.Rows st)
       /\ r "shared_blks_hit" = pg.VInt (dbstats.SharedBlksHit st)
       /\ r "shared_blks_read" = pg.VInt (dbstats.SharedBlksRead st)
       /\ r "shared_blks_dirtied" = pg.VInt (dbstats.SharedBlksDirtied st)
       /\ r "shared_blks_written" = pg.VInt (dbstats.SharedBlksWritten st)
       /\ r "local_blks_hit" = pg.VInt (dbstats.LocalBlksHit st)
       /\ r "local_blks_read" = pg.VInt (dbstats.LocalBlksRead st)
       /\ r "local_blks_dirtied" = pg.VInt (dbstats.LocalBlksDirtied st)
       /\ r "local_blks_written" = pg.VInt (dbstats.LocalBlksWritten st)
       /\ r "temp_blks_read" = pg.VInt (dbstats.TempBlksRead st)
       /\ r "temp_blks_written" = pg.VInt (dbstats.TempBlksWritten st)
       /\ r "blk_read_time" = pg.VFloat (dbstats.BlkReadTime st)
       /\ r "blk_write_time" = pg.VFloat (dbstats.BlkWriteTime st).
Proof.
  split.
  - destruct (fixed_columns (fun _ => pg.VNull) V94 V95 version) as [Hlen _].
    cbv zeta in Hlen. now rewrite length_map in Hlen.
  - intros r st Hscan. unfold dbstats.scan_selected in Hscan.
    apply Scan_fixed in Hscan.
    destruct (fixed_columns r V94 V95 version) as [_ Hcols]. cbv zeta in Hcols.
    rewrite Hcols in Hscan.
    injection Hscan as -> -> -> -> -> -> -> -> -> -> -> -> -> -> -> -> ->.
    repeat split; reflexivity.
Qed.

Lemma fields_hold_their_columns_witness :
  dbstats.scan_selected (dbstats.optionalFieldsFor 90400 90500 pg96) stat_row
  = inr stat_statement
  /\ stat_row "query" = pg.VText (dbstats.Query stat_statement)
  /\ stat_row "shared_blks_read" = pg.VInt (dbstats.SharedBlksRead stat_statement).
Proof.
  assert (H : dbstats.scan_selected (dbstats.optionalFieldsFor 90400 90500 pg96) stat_row
              = inr stat_statement) by (vm_compute; reflexivity).
  split; [exact H|].
  pose proof (proj2 (fields_hold_their_columns 90400 90500 pg96)
                stat_row stat_statement H) as Hf.
  split; [exact (proj1 (proj2 Hf)) | exact (proj1 (proj2 (proj2 (proj2 (proj2 (proj2 (proj2 Hf)))))))].
Defined.


(** ** Logging *)

(** X12.  [GetStatements] logs the verbose message exactly when the
    helper was found and the info message exactly when it executes
    CREATE EXTENSION, and nothing else. *)
Theorem messages_follow_helper_and_repair
  (marker : string) (V94 V95 : Z) (W : Type) (db : sql.DB W dbstats.Statement)
  (version : dbstats.PostgresVersion) (w : W) :
  let helper := sql.result (dbstats.statementStatsHelperExists marker db) w in
  let t := sql.trace (dbstats.GetStatements marker V94 V95 db version) w in
  printed t
  = ((if helper
      then [sql.PrintVerbose "Found pganalyze.get_stat_statements() stats helper"]
      else [])
     ++ (match executed t with
         | [] => []
         | _ :: _ =>
             [sql.PrintInfo
                "pg_stat_statements relation does not exist, trying to create extension..."]
         end))%list.
Proof.
  run_db. repeat answer.
  all: reflexivity.
Qed.

(** ** Blanks around the marker *)

Lemma TrimRight_blank (s : string) :
  strings.TrimRight (s ++ " ") " " = strings.TrimRight s " ".
Proof.
  induction s as [|c s IH]; [reflexivity|].
  cbn [String.append strings.TrimRight]. now rewrite IH.
Qed.

Lemma Trim_blank_right (s : string) : strings.Trim (s ++ " ") " " = strings.Trim s " ".
Proof.
  unfold strings.Trim. induction s as [|c s IH]; [reflexivity|].
  cbn [String.append strings.TrimLeft].
  destruct (mem_ascii c " "); [exact IH|].
  apply (TrimRight_blank (String c s)).
Qed.

(** X13.  Blanks before or after the marker do not reach the pattern:
    a marker and the same marker with one more blank on either side give
    the same pattern. *)
Theorem marker_pattern_ignores_outer_blanks (marker : string) :
  dbstats.queryMarkerRegex (" " ++ marker) = dbstats.queryMarkerRegex marker
  /\ dbstats.queryMarkerRegex (marker ++ " ") = dbstats.queryMarkerRegex marker.
Proof.
  rewrite !queryMarkerRegex_escape. split; [reflexivity|].
  f_equal. apply Trim_blank_right.
Qed.
